(** * DeepLabCut-live-GUI camera backends: a shallow embedding

    The two camera classes of [dlclivegui/camera] are embedded here as pure
    functions over explicit object and world states:

    - [Sentech]   : [sentech_usb.py], class [SentechCam]
    - [MacOpenCV] : [mac_opencv.py],  class [Mac_OpenCVCam]

    Python values are modelled as follows.  Integers are [Z].  Floats (times,
    frame rates, angles) are idealised as exact rationals [Q]; rounding is not
    modelled.  An attribute that may hold [None] is an [option].  An exception
    is a value of [exn], and a call that may raise returns [result].  The
    wall clock and the capture device are scripts of the successive values
    that [time.time()] and the device read will deliver. *)

From Stdlib Require Import ZArith QArith List String Bool Lia Lqa Sorted
  Permutation.
Import ListNotations.

Local Open Scope Z_scope.

(** ** Python primitives *)

Module Py.

(** Exceptions that the embedded code can raise or let through. *)
Inductive exn : Type :=
| CameraError (msg : string)
| NameError (name : string)
| AttributeError (name : string)
| TypeError
| ZeroDivisionError
| IndexError
| Cv2Error
| SdkError (msg : string).

Definition result (A : Type) : Type := (exn + A)%type.

Definition ret {A : Type} (a : A) : result A := inr a.
Definition raise {A : Type} (e : exn) : result A := inl e.

Definition bind {A B : Type} (m : result A) (k : A -> result B) : result B :=
  match m with
  | inl e => inl e
  | inr a => k a
  end.

(** Truth value of a number-or-None attribute: [None] and zero are falsy. *)
Definition truthyZ (o : option Z) : bool :=
  match o with
  | Some z => negb (z =? 0)
  | None => false
  end.

Definition truthyQ (o : option Q) : bool :=
  match o with
  | Some q => negb (Qeq_bool q 0)
  | None => false
  end.

(** Truth value of a list-or-None attribute: [None] and [[]] are falsy. *)
Definition truthyL {A : Type} (o : option (list A)) : bool :=
  match o with
  | Some (_ :: _) => true
  | _ => false
  end.

(** [l[i]] for a literal index [i >= 0]. *)
Definition getitem {A : Type} (l : list A) (i : nat) : result A :=
  match nth_error l i with
  | Some a => ret a
  | None => raise IndexError
  end.

(** Adjustment of one bound of a slice [a:b] to a sequence of length [len]:
    a negative bound counts from the end, and the result is clipped to
    [0..len]. *)
Definition slice_bound (len i : Z) : Z :=
  if i <? 0 then Z.max 0 (i + len) else Z.min i len.

(** [l[start:stop]] with integer bounds and step 1. *)
Definition slice {A : Type} (start stop : Z) (l : list A) : list A :=
  let len := Z.of_nat (List.length l) in
  let a := slice_bound len start in
  let b := slice_bound len stop in
  firstn (Z.to_nat (b - a)) (skipn (Z.to_nat a) l).

(** [a > b] on floats. *)
Definition gt (a b : Q) : bool := negb (Qle_bool a b).

(** [a < b] on floats. *)
Definition lt (a b : Q) : bool := negb (Qle_bool b a).

(** The builtin [max(a, b)]: the first argument unless the second is
    strictly greater. *)
Definition max (a b : Q) : Q := if gt b a then b else a.

(** [a / b] where [b] is a float-or-None attribute. *)
Definition div (a : Q) (b : option Q) : result Q :=
  match b with
  | None => raise TypeError
  | Some d => if Qeq_bool d 0 then raise ZeroDivisionError else ret (a / d)%Q
  end.

End Py.

Notation "x <- m ;; k" := (Py.bind m (fun x => k))
  (at level 61, m at next level, right associativity).

(** ** Frames *)

(** A two-dimensional arrangement of cells: a list of rows. *)
Definition grid (A : Type) : Type := list (list A).

(** A frame as a numpy array: [Arr2] has [ndim = 2] (one value per cell),
    [Arr3] has [ndim = 3] (a list of channel values per cell). *)
Inductive ndarray : Type :=
| Arr2 (g : grid Z)
| Arr3 (g : grid (list Z)).

Definition ndim (a : ndarray) : Z :=
  match a with
  | Arr2 _ => 2
  | Arr3 _ => 3
  end.

(** [g[t:b, l:r]] on the first two axes. *)
Definition grid_slice {A : Type} (t b l r : Z) (g : grid A) : grid A :=
  map (Py.slice l r) (Py.slice t b g).

Definition nd_slice (t b l r : Z) (a : ndarray) : ndarray :=
  match a with
  | Arr2 g => Arr2 (grid_slice t b l r g)
  | Arr3 g => Arr3 (grid_slice t b l r g)
  end.

(** [g] has [h] rows, each of [w] cells. *)
Definition grid_shape {A : Type} (g : grid A) (h w : Z) : Prop :=
  Z.of_nat (List.length g) = h /\ Forall (fun row => Z.of_nat (List.length row) = w) g.

Definition nd_shape (a : ndarray) (h w : Z) : Prop :=
  match a with
  | Arr2 g => grid_shape g h w
  | Arr3 g => grid_shape g h w
  end.

(** The cell in row [i], column [j], when there is one. *)
Definition grid_cell {A : Type} (g : grid A) (i j : Z) : option A :=
  if (i <? 0) || (j <? 0) then None
  else match nth_error g (Z.to_nat i) with
       | Some row => nth_error row (Z.to_nat j)
       | None => None
       end.

(** The channel values of the cell in row [i], column [j]. *)
Definition nd_cell (a : ndarray) (i j : Z) : option (list Z) :=
  match a with
  | Arr2 g => option_map (fun v => [v]) (grid_cell g i j)
  | Arr3 g => grid_cell g i j
  end.

(** [np.uint8(a)]: every value is reduced modulo 256. *)
Definition np_uint8 (a : ndarray) : ndarray :=
  match a with
  | Arr2 g => Arr2 (map (map (fun v => v mod 256)) g)
  | Arr3 g => Arr3 (map (map (map (fun v => v mod 256))) g)
  end.

(** Every value of the frame is a byte. *)
Definition nd_bytes (a : ndarray) : Prop :=
  match a with
  | Arr2 g => Forall (Forall (fun v => 0 <= v < 256)) g
  | Arr3 g => Forall (Forall (Forall (fun v => 0 <= v < 256))) g
  end.

(** OpenCV's [COLOR_RGB2BGR] on one cell: of three channels the first and
    third change places; a fourth (alpha) channel is dropped; a single
    channel is repeated three times; other channel counts are rejected. *)
Definition swap_RB (px : list Z) : Py.result (list Z) :=
  match px with
  | [c] => Py.ret [c; c; c]
  | [c0; c1; c2] => Py.ret [c2; c1; c0]
  | [c0; c1; c2; _] => Py.ret [c2; c1; c0]
  | _ => Py.raise Py.Cv2Error
  end.

Fixpoint mapM {A B : Type} (f : A -> Py.result B) (l : list A)
  : Py.result (list B) :=
  match l with
  | [] => Py.ret []
  | a :: l' => b <- f a ;; bs <- mapM f l' ;; Py.ret (b :: bs)
  end.

(** An array without cells: no rows, or rows of no cells. *)
Definition grid_empty {A : Type} (g : grid A) : bool :=
  match g with
  | [] => true
  | [] :: _ => true
  | _ => false
  end.

(** [cv2.cvtColor(a, cv2.COLOR_RGB2BGR)].  An empty array is rejected; a
    2-D array is an image of one channel. *)
Definition cvtColor_RGB2BGR (a : ndarray) : Py.result ndarray :=
  match a with
  | Arr2 g =>
      if grid_empty g then Py.raise Py.Cv2Error
      else Py.ret (Arr3 (map (map (fun c => [c; c; c])) g))
  | Arr3 g =>
      if grid_empty g then Py.raise Py.Cv2Error
      else g' <- mapM (mapM swap_RB) g ;; Py.ret (Arr3 g')
  end.

(** The world a camera object runs in: what the successive calls of
    [time.time()] return, and what the successive reads of the capture
    device deliver. *)
Record World (R : Type) : Type := mkWorld {
  clock : list Q;
  device : list R
}.
Arguments mkWorld {R} _ _.
Arguments clock {R} _.
Arguments device {R} _.

(** The outcome of a method call: the object and the world as the call
    leaves them, and the value returned or the exception raised.  [None]
    stands for a script that ended before the call did. *)
Definition outcome (S R A : Type) : Type :=
  option (S * World R * Py.result A).

(** ** [sentech_usb.py]: the SDK backend *)

Module Sentech.

(** The attributes of a [SentechCam] object. *)
Record SentechCam : Type := mkSentechCam {
  id : Z;
  sdk_path : option string;
  exposure : option Z;
  gain : option Z;
  rotate : option Q;
  crop : option (list Z);
  im_size : Z * Z;
  fps : option Q;
  use_tk_display : bool;
  display_resize : Q;
  next_frame : Q
}.

(** [set_im_size(res)], given the [crop] attribute that [__init__] has
    already stored; the value is the new [im_size] attribute. *)
Definition set_im_size (self_crop : option (list Z)) (res : option (list Z))
  : Py.result (Z * Z) :=
  if negb (Py.truthyL res) then
    Py.raise (Py.CameraError "Resolution is not set!")
  else
    match self_crop with
    | None =>
        match res with
        | Some r =>
            r0 <- Py.getitem r 0 ;;
            r1 <- Py.getitem r 1 ;;
            Py.ret (r0, r1)
        | None => Py.raise Py.TypeError
        end
    | Some c =>
        c3 <- Py.getitem c 3 ;;
        c2 <- Py.getitem c 2 ;;
        c1 <- Py.getitem c 1 ;;
        c0 <- Py.getitem c 0 ;;
        Py.ret (c3 - c2, c1 - c0)
    end.

(** [SentechCam.__init__]. *)
Definition __init__
  (device : Z) (sdk_path : option string) (resolution : option (list Z))
  (exposure gain : option Z) (rotate : option Q) (crop : option (list Z))
  (fps : option Q) (use_tk_display : bool) (display_resize : option Q)
  : Py.result SentechCam :=
  let self_crop := if Py.truthyL crop then crop else None in
  size <- set_im_size self_crop resolution ;;
  Py.ret {|
    id := device;
    sdk_path := sdk_path;
    exposure := exposure;
    gain := gain;
    rotate := rotate;
    crop := self_crop;
    im_size := size;
    fps := fps;
    use_tk_display := use_tk_display;
    display_resize :=
      match display_resize with
      | Some d => if Py.truthyQ display_resize then d else 1%Q
      | None => 1%Q
      end;
    next_frame := 0%Q
  |}.

(** The calls that reach the vendor SDK. *)
Inductive sdk_call : Type :=
| get_camera (path : option string) (cam_id : Z)
| image_shape (shape : Z * Z)
| set_exposure (e : Z)
| set_gain (g : Z).

(** [set_capture_device]: the SDK calls it makes, in order.  A 2-tuple is
    always truthy, so [image_shape] is always called. *)
Definition set_capture_device (self : SentechCam) : list sdk_call :=
  [get_camera (sdk_path self) (id self)]
  ++ [image_shape (fst (im_size self), snd (im_size self))]
  ++ match exposure self with
     | Some e => if Py.truthyZ (exposure self) then [set_exposure e] else []
     | None => []
     end
  ++ match gain self with
     | Some g => if Py.truthyZ (gain self) then [set_gain g] else []
     | None => []
     end.

(** [get_image]: one grab from the SDK handle, converted with [np.uint8].
    A failing grab raises the SDK's exception. *)
Definition get_image (grab : Py.result ndarray) : Py.result ndarray :=
  a <- grab ;; Py.ret (np_uint8 a).

Definition with_next_frame (self : SentechCam) (t : Q) : SentechCam :=
  {| id := id self;
     sdk_path := sdk_path self;
     exposure := exposure self;
     gain := gain self;
     rotate := rotate self;
     crop := crop self;
     im_size := im_size self;
     fps := fps self;
     use_tk_display := use_tk_display self;
     display_resize := display_resize self;
     next_frame := t |}.

(** The body of the [if cur_time > self.next_frame] branch: acquisition,
    timestamp, and the deadline update.  The arithmetic is exact: the
    rounding of the floats of the source is not modelled. *)
Definition acquire (self : SentechCam) (cur_time : Q)
  (grab : Py.result ndarray) : SentechCam * Py.result (ndarray * Q) :=
  match get_image grab with
  | inl e => (self, inl e)
  | inr frame =>
      let timestamp := cur_time in
      match (a <- Py.div 1 (fps self) ;;
             b <- Py.div (1 # 2) (fps self) ;;
             Py.ret (Py.max (next_frame self + a) (cur_time + b))%Q) with
      | inl e => (self, inl e)
      | inr nf => (with_next_frame self nf, inr (frame, timestamp))
      end
  end.

(** The [while frame is None] loop of [get_image_on_time], by recursion on
    the clock script: one reading per iteration. *)
Fixpoint poll (self : SentechCam) (clk : list Q)
  (dev : list (Py.result ndarray))
  : outcome SentechCam (Py.result ndarray) (ndarray * Q) :=
  match clk with
  | [] => None
  | cur_time :: clk' =>
      if Py.gt cur_time (next_frame self) then
        match dev with
        | [] => None
        | grab :: dev' =>
            let (self', r) := acquire self cur_time grab in
            Some (self', mkWorld clk' dev', r)
        end
      else poll self clk' dev
  end.

(** [SentechCam.get_image_on_time]. *)
Definition get_image_on_time (self : SentechCam)
  (w : World (Py.result ndarray))
  : outcome SentechCam (Py.result ndarray) (ndarray * Q) :=
  poll self (clock w) (device w).

(** [n] successive calls of [get_image_on_time], the caller going on after
    a raised exception: the (frame, timestamp) pairs returned, in order. *)
Fixpoint run (n : nat) (self : SentechCam) (w : World (Py.result ndarray))
  : list (ndarray * Q) :=
  match n with
  | O => []
  | S n' =>
      match get_image_on_time self w with
      | None => []
      | Some (self', w', inl _) => run n' self' w'
      | Some (self', w', inr ft) => ft :: run n' self' w'
      end
  end.

End Sentech.

(** ** [mac_opencv.py]: the generic video backend *)

Module MacOpenCV.

(** Modelled from the spec: the base class [Camera] of [dlclivegui.camera]
    is not among the sources.  These are the fields of the Device
    Configuration that the methods below read from the object. *)
Record Camera : Type := mkCamera {
  id : Z;
  im_size : option (Z * Z);
  exposure : option Z;
  rotate : option Q;
  crop : option (list Z);
  fps : option Q
}.

(** The attributes of a [Mac_OpenCVCam] object.  [cv2_color] is set by
    [set_capture_device]; [last_cap_read] by [set_capture_device] in video
    mode and by every successful [get_image_on_time]. *)
Record Mac_OpenCVCam : Type := mkMac {
  base : Camera;
  video : bool;
  auto_exposure : option Z;
  gain : option Z;
  cv2_color : option Q;
  last_cap_read : option Q
}.

(** The names bound at module level in [mac_opencv.py]: its imports and its
    class. *)
Definition module_globals : list string :=
  ["cv2"; "filedialog"; "rotate_bound"; "time"; "platform";
   "Camera"; "CameraError"; "Mac_OpenCVCam"]%string.

(** What [raise name(msg)] raises inside this module: [NameError] when
    [name] is not bound, the camera exception when it is [CameraError]. *)
Definition raise_named (name msg : string) : Py.exn :=
  if negb (existsb (String.eqb name) module_globals) then Py.NameError name
  else if String.eqb name "CameraError" then Py.CameraError msg
  else Py.TypeError.

(** The calls that [arg_restrictions] makes on its [cv2.VideoCapture]
    handle: [cap.open(index)] with its answer, and [cap.release()]. *)
Inductive probe_call : Type :=
| cap_open (index : Z) (avail : bool)
| cap_release.

(** The [while avail] loop of [arg_restrictions], by recursion on the
    script of the answers of [cap.open]: the final [devs] and the calls
    made.  [devs] is never empty, so [devs[-1]] is its last element. *)
Fixpoint probe (devs : list Z) (answers : list bool)
  : option (list Z * list probe_call) :=
  match answers with
  | [] => None
  | avail :: answers' =>
      let cur_index := last devs 0 + 1 in
      if avail then
        match probe (devs ++ [cur_index]) answers' with
        | Some (devs', calls) =>
            Some (devs', cap_open cur_index true :: cap_release :: calls)
        | None => None
        end
      else Some (devs, [cap_open cur_index false])
  end.

(** [Mac_OpenCVCam.arg_restrictions]: the dictionary returned, and the
    calls made on the handle. *)
Definition arg_restrictions (answers : list bool)
  : option (list (string * list bool) * list probe_call) :=
  match probe [0] answers with
  | Some (_, calls) => Some ([("display"%string, [true; false])], calls)
  | None => None
  end.

(** Whether the handle holds a device after the given calls, starting from
    [held]. *)
Fixpoint handle_held (held : bool) (calls : list probe_call) : bool :=
  match calls with
  | [] => held
  | cap_open _ avail :: calls' => handle_held avail calls'
  | cap_release :: calls' => handle_held false calls'
  end.

(** The indices that the calls tried to open, in order. *)
Fixpoint probed (calls : list probe_call) : list Z :=
  match calls with
  | [] => []
  | cap_open index _ :: calls' => index :: probed calls'
  | cap_release :: calls' => probed calls'
  end.

Section Init.

(** The constructor of the base class [Camera], which is not among the
    sources: it is left open. *)
Variable Camera__init__ :
  Z -> option (list Z) -> option Z -> option Q -> option (list Z) ->
  option Q -> bool -> option Q -> Py.result Camera.

(** [Mac_OpenCVCam.__init__]: the ids printed, and the object built or the
    exception raised. *)
Definition __init__
  (device : Z) (resolution : option (list Z)) (auto_exposure exposure
  gain : option Z) (rotate : option Q) (crop : option (list Z))
  (fps : option Q) (display : bool) (display_resize : option Q)
  : list Z * Py.result Mac_OpenCVCam :=
  if negb (device =? -1) then
    let id := device in
    ([id],
     b <- Camera__init__ id resolution exposure rotate crop fps display
            display_resize ;;
     Py.ret {| base := b;
               video := false;
               auto_exposure := auto_exposure;
               gain := gain;
               cv2_color := None;
               last_cap_read := None |})
  else
    ([],
     Py.raise
       (raise_named "DLCLiveCameraError"
          "Must initialize an OpenCVCam with a device id. Please select the OpenCVCam camera in order to use a file.")).

End Init.

(** The properties of [cv2] that [set_capture_device] sets. *)
Inductive cap_prop : Type :=
| CAP_PROP_FRAME_WIDTH
| CAP_PROP_FRAME_HEIGHT
| CAP_PROP_AUTO_EXPOSURE
| CAP_PROP_EXPOSURE
| CAP_PROP_GAIN
| CAP_PROP_FPS.

(** A number handed to [cap.set]. *)
Inductive num : Type :=
| int (z : Z)
| float (q : Q).

(** The calls that [set_capture_device] makes on [cv2]. *)
Inductive cap_call : Type :=
| VideoCapture (index : Z)
| cap_read
| cap_set (p : cap_prop) (v : num)
| cap_get_mode.

(** The [cap.set] calls of the device branch, each made when its attribute
    is truthy. *)
Definition cap_settings (self : Mac_OpenCVCam) : list cap_call :=
  match im_size (base self) with
  | Some (s0, s1) => [cap_set CAP_PROP_FRAME_WIDTH (int s0);
                      cap_set CAP_PROP_FRAME_HEIGHT (int s1)]
  | None => []
  end
  ++ match auto_exposure self with
     | Some a => if Py.truthyZ (auto_exposure self)
                 then [cap_set CAP_PROP_AUTO_EXPOSURE (int a)] else []
     | None => []
     end
  ++ match exposure (base self) with
     | Some e => if Py.truthyZ (exposure (base self))
                 then [cap_set CAP_PROP_EXPOSURE (int e)] else []
     | None => []
     end
  ++ match gain self with
     | Some g => if Py.truthyZ (gain self)
                 then [cap_set CAP_PROP_GAIN (int g)] else []
     | None => []
     end
  ++ match fps (base self) with
     | Some f => if Py.truthyQ (fps (base self))
                 then [cap_set CAP_PROP_FPS (float f)] else []
     | None => []
     end.

(** [Mac_OpenCVCam.set_capture_device], where [mode] is what
    [cap.get(cv2.CAP_PROP_MODE)] answers: the object and the device script
    as the call leaves them, and the calls made.  In the device branch one
    frame is read and dropped before the settings are applied. *)
Definition set_capture_device (self : Mac_OpenCVCam) (mode : Q)
  (dev : list (option ndarray))
  : option (Mac_OpenCVCam * list (option ndarray) * list cap_call) :=
  if negb (video self) then
    match dev with
    | [] => None
    | _ :: dev' =>
        Some ({| base := base self;
                 video := video self;
                 auto_exposure := auto_exposure self;
                 gain := gain self;
                 cv2_color := Some mode;
                 last_cap_read := last_cap_read self |},
              dev',
              [VideoCapture (id (base self)); cap_read]
              ++ cap_settings self ++ [cap_get_mode])
    end
  else
    Some ({| base := base self;
             video := video self;
             auto_exposure := auto_exposure self;
             gain := gain self;
             cv2_color := Some mode;
             last_cap_read := Some 0%Q |},
          dev,
          [VideoCapture (id (base self)); cap_get_mode]).

Section Frames.

(** [imutils.rotate_bound], an external library function. *)
Variable rotate_bound : ndarray -> Q -> ndarray.

(** Lines 116-117: rotation, when [self.rotate] is truthy. *)
Definition rotate_step (self : Mac_OpenCVCam) (frame : ndarray) : ndarray :=
  match rotate (base self) with
  | Some a => if Py.truthyQ (rotate (base self)) then rotate_bound frame a
              else frame
  | None => frame
  end.

(** Lines 118-119: crop, when [self.crop] is truthy. *)
Definition crop_step (self : Mac_OpenCVCam) (frame : ndarray)
  : Py.result ndarray :=
  match crop (base self) with
  | Some c =>
      if Py.truthyL (crop (base self)) then
        c2 <- Py.getitem c 2 ;;
        c3 <- Py.getitem c 3 ;;
        c0 <- Py.getitem c 0 ;;
        c1 <- Py.getitem c 1 ;;
        Py.ret (nd_slice c2 c3 c0 c1 frame)
      else Py.ret frame
  | None => Py.ret frame
  end.

(** Lines 121-123: channel order, for a frame with a colour axis. *)
Definition color_step (self : Mac_OpenCVCam) (frame : ndarray)
  : Py.result ndarray :=
  if ndim frame =? 3 then
    match cv2_color self with
    | None => Py.raise (Py.AttributeError "cv2_color")
    | Some m => if Qeq_bool m 1 then cvtColor_RGB2BGR frame
                else Py.ret frame
    end
  else Py.ret frame.

(** Lines 116-123 together. *)
Definition normalize (self : Mac_OpenCVCam) (frame : ndarray)
  : Py.result ndarray :=
  cropped <- crop_step self (rotate_step self frame) ;;
  color_step self cropped.

Definition with_last_cap_read (self : Mac_OpenCVCam) (t : Q)
  : Mac_OpenCVCam :=
  {| base := base self;
     video := video self;
     auto_exposure := auto_exposure self;
     gain := gain self;
     cv2_color := cv2_color self;
     last_cap_read := Some t |}.

(** The busy-wait loop of video mode, by recursion on the clock script: the
    clock that is left, and whether the loop ended or raised.  The
    arithmetic is exact: the rounding of the floats of the source is not
    modelled. *)
Fixpoint wait (self : Mac_OpenCVCam) (clk : list Q)
  : option (list Q * Py.result unit) :=
  match clk with
  | [] => None
  | t :: clk' =>
      match last_cap_read self with
      | None => Some (clk', Py.raise (Py.AttributeError "last_cap_read"))
      | Some l =>
          match Py.div 1 (fps (base self)) with
          | inl e => Some (clk', inl e)
          | inr period =>
              if Py.lt (t - l)%Q period then wait self clk'
              else Some (clk', Py.ret tt)
          end
      end
  end.

(** From [ret, frame = self.cap.read()] on.  A device response [None]
    stands for [(False, None)], and [Some f] for [(True, f)]. *)
Definition read_and_normalize (self : Mac_OpenCVCam) (clk : list Q)
  (dev : list (option ndarray))
  : outcome Mac_OpenCVCam (option ndarray) (ndarray * Q) :=
  match dev with
  | [] => None
  | None :: dev' =>
      Some (self, mkWorld clk dev',
            Py.raise (raise_named "CameraError"
              "OpenCV VideoCapture.read did not return an image!"))
  | Some raw :: dev' =>
      match normalize self raw with
      | inl e => Some (self, mkWorld clk dev', inl e)
      | inr frame =>
          match clk with
          | [] => None
          | t :: clk' =>
              Some (with_last_cap_read self t, mkWorld clk' dev',
                    Py.ret (frame, t))
          end
      end
  end.

(** [Mac_OpenCVCam.get_image_on_time]. *)
Definition get_image_on_time (self : Mac_OpenCVCam)
  (w : World (option ndarray))
  : outcome Mac_OpenCVCam (option ndarray) (ndarray * Q) :=
  if video self then
    match wait self (clock w) with
    | None => None
    | Some (clk, inl e) => Some (self, mkWorld clk (device w), inl e)
    | Some (clk, inr _) => read_and_normalize self clk (device w)
    end
  else read_and_normalize self (clock w) (device w).

End Frames.

End MacOpenCV.

(** ** Properties under examination, and sample objects *)

(** The two backends normalise alike: under the same device id, exposure,
    frame rate, rotation and crop settings, successful calls that acquire
    the same raw frame return the same frame. *)
Definition same_normalization (rotate_bound : ndarray -> Q -> ndarray)
  : Prop :=
  forall (m m' : MacOpenCV.Mac_OpenCVCam) (s s' : Sentech.SentechCam)
         (raw fm fs : ndarray) (tm ts : Q)
         (wm wm' : World (option ndarray))
         (ws ws' : World (Py.result ndarray)),
    MacOpenCV.id (MacOpenCV.base m) = Sentech.id s ->
    MacOpenCV.exposure (MacOpenCV.base m) = Sentech.exposure s ->
    MacOpenCV.fps (MacOpenCV.base m) = Sentech.fps s ->
    MacOpenCV.rotate (MacOpenCV.base m) = Sentech.rotate s ->
    MacOpenCV.crop (MacOpenCV.base m) = Sentech.crop s ->
    hd_error (device wm) = Some (Some raw) ->
    hd_error (device ws) = Some (inr raw) ->
    MacOpenCV.get_image_on_time rotate_bound m wm
      = Some (m', wm', inr (fm, tm)) ->
    Sentech.get_image_on_time s ws = Some (s', ws', inr (fs, ts)) ->
    fm = fs.

(** The timestamp of a returned frame is a clock reading taken right after
    the deadline update: such a reading is the head of the clock script
    that the call leaves behind. *)
Definition timestamp_read_after_update (self : Sentech.SentechCam)
  (w : World (Py.result ndarray)) : Prop :=
  forall self' w' frame ts,
    Sentech.get_image_on_time self w = Some (self', w', inr (frame, ts)) ->
    hd_error (clock w') = Some ts.

(** The constructor of the SDK backend raises [CameraError] exactly when
    neither a resolution nor a crop is given. *)
Definition size_error_iff_nothing_given
  (resolution crop : option (list Z)) : Prop :=
  forall device sdk_path exposure gain rotate fps tk resize,
    (exists msg,
       Sentech.__init__ device sdk_path resolution exposure gain rotate crop
         fps tk resize = inl (Py.CameraError msg))
    <-> (Py.truthyL resolution = false /\ Py.truthyL crop = false).

(** Successive timestamps lie at least [d] apart. *)
Definition spaced (d : Q) (l : list (ndarray * Q)) : Prop :=
  Sorted (fun p q => (d <= snd q - snd p)%Q) l.

(** A 2x2 grey frame and a 1x2 colour frame. *)
Definition grey22 : ndarray := Arr2 [[1; 2]; [3; 4]].
Definition colour12 : ndarray := Arr3 [[[10; 20; 30]; [40; 50; 60]]].

(** A [SentechCam] at 10 frames per second, as
    [SentechCam(resolution=[640, 480], fps=10)] builds it. *)
Definition sentech10 : Sentech.SentechCam :=
  {| Sentech.id := 0;
     Sentech.sdk_path := None;
     Sentech.exposure := None;
     Sentech.gain := None;
     Sentech.rotate := None;
     Sentech.crop := None;
     Sentech.im_size := (640, 480);
     Sentech.fps := Some 10%Q;
     Sentech.use_tk_display := false;
     Sentech.display_resize := 1%Q;
     Sentech.next_frame := 0%Q |}.

(** The same with [crop=[0, 1, 0, 1]]. *)
Definition sentech_cropped : Sentech.SentechCam :=
  {| Sentech.id := 0;
     Sentech.sdk_path := None;
     Sentech.exposure := None;
     Sentech.gain := None;
     Sentech.rotate := None;
     Sentech.crop := Some [0; 1; 0; 1];
     Sentech.im_size := (1, 1);
     Sentech.fps := Some 10%Q;
     Sentech.use_tk_display := false;
     Sentech.display_resize := 1%Q;
     Sentech.next_frame := 0%Q |}.

(** An opened [Mac_OpenCVCam] with the given rotation, crop and colour
    mode, at 10 frames per second. *)
Definition mac_cam (rotate : option Q) (crop : option (list Z)) (mode : Q)
  : MacOpenCV.Mac_OpenCVCam :=
  {| MacOpenCV.base :=
       {| MacOpenCV.id := 0;
          MacOpenCV.im_size := Some (640, 480);
          MacOpenCV.exposure := None;
          MacOpenCV.rotate := rotate;
          MacOpenCV.crop := crop;
          MacOpenCV.fps := Some 10%Q |};
     MacOpenCV.video := false;
     MacOpenCV.auto_exposure := None;
     MacOpenCV.gain := None;
     MacOpenCV.cv2_color := Some mode;
     MacOpenCV.last_cap_read := None |}.

(** A rotation that leaves the frame as it is, for runs that never rotate. *)
Definition no_rotation (frame : ndarray) (angle : Q) : ndarray := frame.

(** The clock never runs backwards. *)
Definition nondecreasing (clk : list Q) : Prop :=
  Sorted (fun a b => (a <= b)%Q) clk.

(** A stand-in for the constructor of the base class, for sample runs: it
    stores its arguments and leaves the frame size unset. *)
Definition sample_Camera_init (id : Z) (resolution : option (list Z))
  (exposure : option Z) (rotate : option Q) (crop : option (list Z))
  (fps : option Q) (use_tk_display : bool) (display_resize : option Q)
  : Py.result MacOpenCV.Camera :=
  Py.ret {| MacOpenCV.id := id;
            MacOpenCV.im_size := None;
            MacOpenCV.exposure := exposure;
            MacOpenCV.rotate := rotate;
            MacOpenCV.crop := crop;
            MacOpenCV.fps := fps |}.

(** The calls of a probe that found the devices [1 .. k] and failed to
    open [k + 1]. *)
Definition probe_calls (k : nat) : list MacOpenCV.probe_call :=
  flat_map (fun i => [MacOpenCV.cap_open (Z.of_nat i) true;
                      MacOpenCV.cap_release]) (seq 1 k)
  ++ [MacOpenCV.cap_open (Z.of_nat (S k)) false].

(** [out] is [f] with the channels of every cell in some other order. *)
Definition channels_permuted (f out : ndarray) : Prop :=
  match f, out with
  | Arr3 g, Arr3 g' => Forall2 (Forall2 (@Permutation Z)) g g'
  | _, _ => False
  end.

(** Normalisation returns every raw frame as it is, up to the order of the
    channels. *)
Definition identity_up_to_channel_order
  (rotate_bound : ndarray -> Q -> ndarray) (self : MacOpenCV.Mac_OpenCVCam)
  : Prop :=
  forall f,
    exists out,
      MacOpenCV.normalize rotate_bound self f = inr out /\
      (out = f \/ channels_permuted f out).

(** A failed grab makes the SDK backend raise the camera exception. *)
Definition failed_grab_raises_CameraError (self : Sentech.SentechCam)
  (w : World (Py.result ndarray)) : Prop :=
  forall e0 dev' self' w' e,
    device w = inl e0 :: dev' ->
    Sentech.get_image_on_time self w = Some (self', w', inl e) ->
    exists msg, e = Py.CameraError msg.

(** A stand-in for [rotate_bound], for sample runs: at 180 degrees the
    rows and the cells of each row come in reverse order; any other angle
    leaves the frame as it is. *)
Definition sample_rotate (frame : ndarray) (angle : Q) : ndarray :=
  if Qeq_bool angle 180 then
    match frame with
    | Arr2 g => Arr2 (rev (map (@rev Z) g))
    | Arr3 g => Arr3 (rev (map (@rev (list Z)) g))
    end
  else frame.

(** ** Facts about the primitives *)

Lemma gt_true_iff (a b : Q) : Py.gt a b = true <-> (b < a)%Q.
Proof.
  unfold Py.gt. rewrite negb_true_iff, <- not_true_iff_false, Qle_bool_iff.
  split; [apply Qnot_le_lt | apply Qlt_not_le].
Qed.

Lemma gt_false_iff (a b : Q) : Py.gt a b = false <-> (a <= b)%Q.
Proof.
  unfold Py.gt. rewrite negb_false_iff. apply Qle_bool_iff.
Qed.

Lemma max_ge_r (a b : Q) : (b <= Py.max a b)%Q.
Proof.
  unfold Py.max. destruct (Py.gt b a) eqn:E.
  - apply Qle_refl.
  - now apply gt_false_iff.
Qed.

Lemma max_ge_l (a b : Q) : (a <= Py.max a b)%Q.
Proof.
  unfold Py.max. destruct (Py.gt b a) eqn:E.
  - apply Qlt_le_weak. now apply gt_true_iff.
  - apply Qle_refl.
Qed.

Lemma div_ok (a : Q) (b : option Q) (q : Q) :
  Py.div a b = inr q ->
  exists d, b = Some d /\ Qeq_bool d 0 = false /\ q = (a / d)%Q.
Proof.
  unfold Py.div. destruct b as [d|]; [|discriminate].
  destruct (Qeq_bool d 0) eqn:E; [discriminate|].
  intros H. injection H as <-. now exists d.
Qed.

(** ** The throttled-poll scheduler of the SDK backend *)

Lemma acquire_raised (self self' : Sentech.SentechCam) (t : Q)
  (grab : Py.result ndarray) (e : Py.exn) :
  Sentech.acquire self t grab = (self', inl e) -> self' = self.
Proof.
  unfold Sentech.acquire.
  destruct (Sentech.get_image grab); [now intros [= <- _]|].
  destruct (Py.bind _ _); now intros [= <- _].
Qed.

Lemma acquire_returned (self self' : Sentech.SentechCam) (t ts : Q)
  (grab : Py.result ndarray) (frame : ndarray) :
  Sentech.acquire self t grab = (self', inr (frame, ts)) ->
  exists raw F,
    grab = inr raw /\ frame = np_uint8 raw /\ ts = t /\
    Sentech.fps self = Some F /\ Qeq_bool F 0 = false /\
    self' = Sentech.with_next_frame self
              (Py.max (Sentech.next_frame self + 1 / F)
                      (t + (1 # 2) / F))%Q.
Proof.
  unfold Sentech.acquire, Sentech.get_image.
  destruct grab as [e|raw]; cbn [Py.bind]; [discriminate|].
  destruct (Py.div 1 (Sentech.fps self)) as [e|a] eqn:Ea;
    cbn [Py.bind]; [discriminate|].
  destruct (Py.div (1 # 2) (Sentech.fps self)) as [e|b] eqn:Eb;
    cbn [Py.bind Py.ret]; [discriminate|].
  intros [= <- <- <-].
  apply div_ok in Ea as (F & HF & Hnz & ->).
  apply div_ok in Eb as (F' & HF' & _ & ->).
  rewrite HF in HF'. injection HF' as <-.
  exists raw, F. repeat split; auto.
Qed.

(** What a finished poll loop has done: it let the readings [pre] go by,
    none of them past the deadline, found [t] past it, and ran [acquire]
    once, on the first device response. *)
Lemma poll_finished (clk : list Q) :
  forall (self self' : Sentech.SentechCam) (dev : list (Py.result ndarray))
         (w' : World (Py.result ndarray)) (r : Py.result (ndarray * Q)),
  Sentech.poll self clk dev = Some (self', w', r) ->
  exists pre t grab,
    clk = pre ++ t :: clock w' /\
    dev = grab :: device w' /\
    Forall (fun x => (x <= Sentech.next_frame self)%Q) pre /\
    (Sentech.next_frame self < t)%Q /\
    Sentech.acquire self t grab = (self', r).
Proof.
  induction clk as [|c clk IH]; intros self self' dev w' r; cbn [Sentech.poll].
  - discriminate.
  - destruct (Py.gt c (Sentech.next_frame self)) eqn:E.
    + destruct dev as [|grab dev']; [discriminate|].
      destruct (Sentech.acquire self c grab) as [s1 r1] eqn:Ea.
      intros [= <- <- <-]. exists [], c, grab. cbn.
      repeat split; auto. now apply gt_true_iff.
    + intros H. apply IH in H as (pre & t & grab & -> & Hd & Hpre & Ht & Ha).
      exists (c :: pre), t, grab. repeat split; auto.
      constructor; auto. now apply gt_false_iff.
Qed.

(** The loop does finish when the clock gets past the deadline and the
    device answers. *)
Lemma poll_terminates (pre : list Q) (t : Q) (post : list Q)
  (self : Sentech.SentechCam) (grab : Py.result ndarray)
  (dev' : list (Py.result ndarray)) :
  Forall (fun x => (x <= Sentech.next_frame self)%Q) pre ->
  (Sentech.next_frame self < t)%Q ->
  Sentech.poll self (pre ++ t :: post) (grab :: dev') =
  Some (fst (Sentech.acquire self t grab), mkWorld post dev',
        snd (Sentech.acquire self t grab)).
Proof.
  intros Hpre Ht. induction Hpre as [|c pre Hc _ IH]; cbn [app Sentech.poll].
  - apply gt_true_iff in Ht. rewrite Ht.
    now destruct (Sentech.acquire self t grab).
  - apply gt_false_iff in Hc. now rewrite Hc.
Qed.

Lemma get_image_on_time_returned (self self' : Sentech.SentechCam)
  (w w' : World (Py.result ndarray)) (frame : ndarray) (ts : Q) :
  Sentech.get_image_on_time self w = Some (self', w', inr (frame, ts)) ->
  exists pre raw F,
    clock w = pre ++ ts :: clock w' /\
    device w = inr raw :: device w' /\
    Forall (fun x => (x <= Sentech.next_frame self)%Q) pre /\
    (Sentech.next_frame self < ts)%Q /\
    frame = np_uint8 raw /\
    Sentech.fps self = Some F /\ Qeq_bool F 0 = false /\
    self' = Sentech.with_next_frame self
              (Py.max (Sentech.next_frame self + 1 / F)
                      (ts + (1 # 2) / F))%Q.
Proof.
  intros H. apply poll_finished in H as (pre & t & grab & Hc & Hd & Hp & Ht & Ha).
  apply acquire_returned in Ha as (raw & F & -> & -> & -> & HF & Hnz & ->).
  exists pre, raw, F. repeat split; auto.
Qed.

Lemma get_image_on_time_raised (self self' : Sentech.SentechCam)
  (w w' : World (Py.result ndarray)) (e : Py.exn) :
  Sentech.get_image_on_time self w = Some (self', w', inl e) -> self' = self.
Proof.
  intros H. apply poll_finished in H as (pre & t & grab & _ & _ & _ & _ & Ha).
  now apply acquire_raised in Ha.
Qed.

(** The first timestamp of a run lies past the deadline the run starts
    with. *)
Lemma run_head_past_deadline (n : nat) :
  forall (self : Sentech.SentechCam) (w : World (Py.result ndarray))
         (p : ndarray * Q),
  hd_error (Sentech.run n self w) = Some p ->
  (Sentech.next_frame self < snd p)%Q.
Proof.
  induction n as [|n IH]; intros self w p; cbn [Sentech.run].
  - discriminate.
  - destruct (Sentech.get_image_on_time self w) as [[[s1 w1] [e|[f t]]]|] eqn:E.
    + apply get_image_on_time_raised in E as ->. apply IH.
    + intros [= <-]. cbn [snd].
      now apply get_image_on_time_returned in E
        as (_ & _ & _ & _ & _ & _ & Ht & _).
    + discriminate.
Qed.

(** C2 (throttled-poll deadline update): after a successful
    [get_image_on_time] at frame rate [F], the new [next_frame] is exactly
    [max(next_frame + 1/F, now + 0.5/F)], where [now] is the returned
    timestamp, the first clock reading of the poll loop found past the old
    deadline; hence the new deadline is at least half a period after
    [now]. *)
Theorem deadline_update (self self' : Sentech.SentechCam)
  (w w' : World (Py.result ndarray)) (frame : ndarray) (now F : Q) :
  Sentech.fps self = Some F ->
  Sentech.get_image_on_time self w = Some (self', w', inr (frame, now)) ->
  Sentech.next_frame self'
    = Py.max (Sentech.next_frame self + 1 / F) (now + (1 # 2) / F)%Q
  /\ (exists pre,
        clock w = pre ++ now :: clock w' /\
        Forall (fun x => (x <= Sentech.next_frame self)%Q) pre /\
        (Sentech.next_frame self < now)%Q)
  /\ (now + (1 # 2) / F <= Sentech.next_frame self')%Q.
Proof.
  intros HF H.
  apply get_image_on_time_returned in H
    as (pre & raw & F' & Hc & _ & Hp & Ht & _ & HF' & _ & ->).
  rewrite HF in HF'. injection HF' as <-.
  cbn [Sentech.next_frame Sentech.with_next_frame].
  split; [reflexivity|]. split.
  - now exists pre.
  - apply max_ge_r.
Qed.

(** A sample world: three clock readings and one frame to grab. *)
Lemma deadline_update_witness :
  exists self' w' frame now,
    Sentech.get_image_on_time sentech10
      (mkWorld [0; 1 # 20; 1]%Q [inr grey22])
      = Some (self', w', inr (frame, now)) /\
    (now + (1 # 2) / 10 <= Sentech.next_frame self')%Q.
Proof.
  do 4 eexists. split; [reflexivity|].
  eapply (deadline_update sentech10 _
            (mkWorld [0; 1 # 20; 1]%Q [inr grey22]) _ _ _ 10%Q);
    reflexivity.
Defined.

(** C3 (half-period spacing): in every run of the throttled-poll
    scheduler at frame rate [F > 0], the timestamps of two successive
    returned frames differ by at least [0.5/F], whatever the acquisition
    takes. *)
Theorem successive_timestamps_spaced (n : nat) (F : Q) :
  forall (self : Sentech.SentechCam) (w : World (Py.result ndarray)),
  Sentech.fps self = Some F ->
  (0 < F)%Q ->
  spaced ((1 # 2) / F) (Sentech.run n self w).
Proof.
  unfold spaced. intros self w HF HposF. revert self w HF.
  induction n as [|n IH]; intros self w HF; cbn [Sentech.run].
  - constructor.
  - destruct (Sentech.get_image_on_time self w) as [[[s1 w1] [e|[f t]]]|] eqn:E.
    + apply get_image_on_time_raised in E as ->. now apply IH.
    + apply get_image_on_time_returned in E
        as (_ & _ & F' & _ & _ & _ & _ & _ & HF' & _ & ->).
      rewrite HF in HF'. injection HF' as <-.
      constructor; [now apply IH|].
      set (nf := Py.max (Sentech.next_frame self + 1 / F)
                        (t + (1 # 2) / F)%Q).
      pose proof (run_head_past_deadline n
                    (Sentech.with_next_frame self nf) w1) as Hhd.
      destruct (Sentech.run n (Sentech.with_next_frame self nf) w1)
        as [|p l]; constructor.
      specialize (Hhd p eq_refl).
      cbn [Sentech.next_frame Sentech.with_next_frame snd] in *.
      pose proof (max_ge_r (Sentech.next_frame self + 1 / F)
                           (t + (1 # 2) / F))%Q as Hm.
      fold nf in Hm. clearbody nf.
      generalize dependent ((1 # 2) / F)%Q. intros h Hm. lra.
    + constructor.
Qed.


(** Two calls at 10 frames per second: the reading [1/10] comes too early
    for the second frame, which waits for [1/5]. *)
Lemma successive_timestamps_spaced_witness :
  map snd (Sentech.run 2 sentech10
             (mkWorld [1 # 20; 1 # 10; 1 # 5; 1]%Q [inr grey22; inr grey22]))
    = [1 # 20; 1 # 5]%Q
  /\ spaced ((1 # 2) / 10)
       (Sentech.run 2 sentech10
          (mkWorld [1 # 20; 1 # 10; 1 # 5; 1]%Q [inr grey22; inr grey22])).
Proof.
  split; [reflexivity|].
  apply successive_timestamps_spaced; reflexivity.
Defined.

(** C6, as stated, fails: with clock readings [1/20] and [1], the frame is
    stamped [1/20], the reading taken before the acquisition, while a
    reading taken after the deadline update would be [1]. *)
Lemma timestamp_not_read_after_update :
  ~ timestamp_read_after_update sentech10
      (mkWorld [0; 1 # 20; 1]%Q [inr grey22]).
Proof.
  intros H. specialize (H _ _ _ _ eq_refl). discriminate H.
Qed.

(** C6, amended (timestamp of the throttled-poll policy): the timestamp
    paired with a returned frame is the clock reading [cur_time] that the
    poll loop found past the deadline.  It is read before the acquisition
    and before the deadline update: the acquisition consumes the first
    device response, and no clock reading is taken after [cur_time]. *)
Theorem timestamp_is_poll_reading (self self' : Sentech.SentechCam)
  (w w' : World (Py.result ndarray)) (frame : ndarray) (ts : Q) :
  Sentech.get_image_on_time self w = Some (self', w', inr (frame, ts)) ->
  exists pre raw,
    clock w = pre ++ ts :: clock w' /\
    Forall (fun x => (x <= Sentech.next_frame self)%Q) pre /\
    (Sentech.next_frame self < ts)%Q /\
    device w = inr raw :: device w' /\
    frame = np_uint8 raw.
Proof.
  intros H.
  apply get_image_on_time_returned in H
    as (pre & raw & F & Hc & Hd & Hp & Ht & Hf & _).
  now exists pre, raw.
Qed.

Lemma timestamp_is_poll_reading_witness :
  exists pre raw,
    [0; 1 # 20; 1]%Q = pre ++ (1 # 20)%Q :: [1%Q] /\
    Forall (fun x => (x <= 0)%Q) pre /\
    (0 < 1 # 20)%Q /\
    [inr grey22] = @inr Py.exn ndarray raw :: [] /\
    grey22 = np_uint8 raw.
Proof.
  exact (timestamp_is_poll_reading sentech10 _
           (mkWorld [0; 1 # 20; 1]%Q [inr grey22]) _ _ _ eq_refl).
Defined.

(** ** The constructor and device set-up of the SDK backend *)

Lemma set_im_size_camera_error (self_crop res : option (list Z)) :
  (exists msg, Sentech.set_im_size self_crop res = inl (Py.CameraError msg))
  <-> Py.truthyL res = false.
Proof.
  unfold Sentech.set_im_size. split.
  - intros [msg H]. destruct (Py.truthyL res) eqn:E; [|reflexivity].
    exfalso. cbn [negb] in H.
    destruct res as [[|r0 [|r1 r]]|]; try discriminate E;
      destruct self_crop as [[|c0 [|c1 [|c2 [|c3 c]]]]|]; discriminate H.
  - intros ->. now eexists.
Qed.

Lemma init_result (device : Z) (sdk_path : option string)
  (resolution : option (list Z)) (exposure gain : option Z)
  (rotate : option Q) (crop : option (list Z)) (fps : option Q)
  (tk : bool) (resize : option Q) (self : Sentech.SentechCam) :
  Sentech.__init__ device sdk_path resolution exposure gain rotate crop fps
    tk resize = inr self ->
  Sentech.crop self = (if Py.truthyL crop then crop else None) /\
  Sentech.set_im_size (Sentech.crop self) resolution
    = inr (Sentech.im_size self).
Proof.
  unfold Sentech.__init__.
  destruct (Sentech.set_im_size _ resolution) as [e|size] eqn:E;
    cbn [Py.bind Py.ret]; [discriminate|].
  intros [= <-]. cbn [Sentech.crop Sentech.im_size]. now split.
Qed.

(** C4, as stated, fails: with a crop rectangle but no resolution the
    constructor raises [CameraError], although a crop is available. *)
Lemma size_error_with_crop_given :
  ~ size_error_iff_nothing_given None (Some [0; 10; 0; 10]).
Proof.
  intros H.
  destruct (H 0 None None None None None false None) as [H1 _].
  destruct H1 as [_ H2]; [now eexists | discriminate H2].
Qed.

(** C4, amended (effective frame size of the SDK backend): the
    constructor raises [CameraError] if and only if no resolution is given
    (it is [None] or empty), whether or not a crop is given.  When it
    succeeds, the frame size comes from the crop rectangle if one is
    configured, overriding the resolution, and from the resolution
    otherwise. *)
Theorem effective_frame_size (device : Z) (sdk_path : option string)
  (resolution : option (list Z)) (exposure gain : option Z)
  (rotate : option Q) (crop : option (list Z)) (fps : option Q)
  (tk : bool) (resize : option Q) :
  ((exists msg,
      Sentech.__init__ device sdk_path resolution exposure gain rotate crop
        fps tk resize = inl (Py.CameraError msg))
   <-> Py.truthyL resolution = false)
  /\ (forall self,
        Sentech.__init__ device sdk_path resolution exposure gain rotate
          crop fps tk resize = inr self ->
        (forall l r t b rest,
           crop = Some (l :: r :: t :: b :: rest) ->
           Sentech.im_size self = (b - t, r - l)) /\
        (Py.truthyL crop = false ->
         exists w h rest,
           resolution = Some (w :: h :: rest) /\
           Sentech.im_size self = (w, h))).
Proof.
  split.
  - rewrite <- (set_im_size_camera_error
                  (if Py.truthyL crop then crop else None) resolution).
    unfold Sentech.__init__.
    destruct (Sentech.set_im_size _ resolution) as [e|size];
      cbn [Py.bind Py.ret].
    + split; intros [msg H]; exists msg; now injection H as ->.
    + split; intros [msg H]; discriminate H.
  - intros self H. apply init_result in H as [Hc Hs]. rewrite Hc in Hs.
    unfold Sentech.set_im_size in Hs.
    destruct (Py.truthyL resolution) eqn:Er; cbn [negb] in Hs;
      [|discriminate Hs].
    split.
    + intros l r t b rest ->. cbn in Hs. now injection Hs as <-.
    + intros Ec. rewrite Ec in Hs.
      destruct resolution as [[|w [|h rest]]|]; try discriminate.
      cbn in Hs. injection Hs as <-. now exists w, h, rest.
Qed.

Lemma effective_frame_size_witness :
  (forall self,
     Sentech.__init__ 0 None (Some [640; 480]) None None None
       (Some [10; 110; 20; 70]) (Some 30%Q) false None = inr self ->
     Sentech.im_size self = (50, 100))
  /\ (forall self,
        Sentech.__init__ 0 None (Some [640; 480]) None None None
          None (Some 30%Q) false None = inr self ->
        exists w h rest,
          Some [640; 480] = Some (w :: h :: rest) /\
          Sentech.im_size self = (w, h)).
Proof.
  split; intros self H.
  - exact (proj1 (proj2 (effective_frame_size 0 None (Some [640; 480]) None
                           None None (Some [10; 110; 20; 70]) (Some 30%Q)
                           false None) self H)
             10 110 20 70 [] eq_refl).
  - exact (proj2 (proj2 (effective_frame_size 0 None (Some [640; 480]) None
                           None None None (Some 30%Q) false None) self H)
             eq_refl).
Defined.

Lemma init_im_size (device : Z) (sdk_path : option string)
  (resolution : option (list Z)) (exposure gain : option Z)
  (rotate : option Q) (crop : option (list Z)) (fps : option Q)
  (tk : bool) (resize : option Q) (self : Sentech.SentechCam) :
  Sentech.__init__ device sdk_path resolution exposure gain rotate crop fps
    tk resize = inr self ->
  match crop with
  | Some (l :: r :: t :: b :: _) => Sentech.im_size self = (b - t, r - l)
  | Some (_ :: _) => False
  | _ => exists w h rest,
           resolution = Some (w :: h :: rest) /\
           Sentech.im_size self = (w, h)
  end.
Proof.
  intros H. apply init_result in H as [Hc Hs]. rewrite Hc in Hs.
  unfold Sentech.set_im_size in Hs.
  destruct (Py.truthyL resolution) eqn:Er; cbn [negb] in Hs;
    [|discriminate Hs].
  destruct crop as [[|l [|r [|t [|b rest]]]]|]; cbn in Hs;
    try discriminate Hs;
    try (now injection Hs as <-);
    (destruct resolution as [[|w [|h rest']]|]; try discriminate;
     cbn in Hs; injection Hs as <-; now exists w, h, rest').
Qed.

Lemma no_image_shape_in_settings (exposure gain : option Z)
  (shape : Z * Z) :
  ~ In (Sentech.image_shape shape)
      (match exposure with
       | Some e => if Py.truthyZ exposure then [Sentech.set_exposure e]
                   else []
       | None => []
       end
       ++ match gain with
          | Some g => if Py.truthyZ gain then [Sentech.set_gain g] else []
          | None => []
          end).
Proof.
  intros Hin. apply in_app_or in Hin as [Hin|Hin].
  - destruct exposure as [e|]; [destruct (Py.truthyZ (Some e))|];
      cbn in Hin; intuition discriminate.
  - destruct gain as [g|]; [destruct (Py.truthyZ (Some g))|];
      cbn in Hin; intuition discriminate.
Qed.

(** C10 (axis order of the device image shape): from a resolution alone
    the constructor computes [im_size = (resolution[0], resolution[1])],
    width first; from a crop [[left, right, top, bottom]] (and any
    resolution) it computes [im_size = (bottom - top, right - left)],
    height first.  In both cases [set_capture_device] hands that pair
    unchanged to the SDK's [image_shape], once. *)
Theorem image_shape_axis_order (device : Z) (sdk_path : option string)
  (exposure gain : option Z) (rotate : option Q) (fps : option Q)
  (tk : bool) (resize : option Q) :
  (forall resolution crop width height rest,
     resolution = Some (width :: height :: rest) ->
     Py.truthyL crop = false ->
     exists self calls,
       Sentech.__init__ device sdk_path resolution exposure gain rotate
         crop fps tk resize = inr self /\
       Sentech.im_size self = (width, height) /\
       Sentech.set_capture_device self
         = Sentech.get_camera sdk_path device
           :: Sentech.image_shape (width, height) :: calls /\
       forall shape, ~ In (Sentech.image_shape shape) calls)
  /\ (forall resolution crop left right top bottom rest,
        Py.truthyL resolution = true ->
        crop = Some (left :: right :: top :: bottom :: rest) ->
        exists self calls,
          Sentech.__init__ device sdk_path resolution exposure gain rotate
            crop fps tk resize = inr self /\
          Sentech.im_size self = (bottom - top, right - left) /\
          Sentech.set_capture_device self
            = Sentech.get_camera sdk_path device
              :: Sentech.image_shape (bottom - top, right - left)
              :: calls /\
          forall shape, ~ In (Sentech.image_shape shape) calls).
Proof.
  split.
  - intros resolution crop width height rest -> Hc.
    unfold Sentech.__init__, Sentech.set_im_size. rewrite Hc.
    cbn [Py.truthyL negb Py.getitem nth_error Py.bind Py.ret].
    do 2 eexists. split; [reflexivity|]. split; [reflexivity|].
    unfold Sentech.set_capture_device.
    cbn [Sentech.sdk_path Sentech.id Sentech.im_size Sentech.exposure
         Sentech.gain fst snd app].
    split; [reflexivity|]. intros shape.
    apply no_image_shape_in_settings.
  - intros resolution crop left right top bottom rest Hr ->.
    unfold Sentech.__init__, Sentech.set_im_size. rewrite Hr.
    cbn [Py.truthyL negb Py.getitem nth_error Py.bind Py.ret].
    do 2 eexists. split; [reflexivity|]. split; [reflexivity|].
    unfold Sentech.set_capture_device.
    cbn [Sentech.sdk_path Sentech.id Sentech.im_size Sentech.exposure
         Sentech.gain fst snd app].
    split; [reflexivity|]. intros shape.
    apply no_image_shape_in_settings.
Qed.

(** The same 640x480 area, asked for as a resolution and as a crop. *)
Lemma image_shape_axis_order_witness :
  (exists self calls,
     Sentech.__init__ 0 None (Some [640; 480]) None None None None
       (Some 30%Q) false None = inr self /\
     Sentech.im_size self = (640, 480) /\
     Sentech.set_capture_device self
       = Sentech.get_camera None 0 :: Sentech.image_shape (640, 480)
         :: calls /\
     forall shape, ~ In (Sentech.image_shape shape) calls)
  /\ (exists self calls,
        Sentech.__init__ 0 None (Some [640; 480]) None None None
          (Some [0; 640; 0; 480]) (Some 30%Q) false None = inr self /\
        Sentech.im_size self = (480, 640) /\
        Sentech.set_capture_device self
          = Sentech.get_camera None 0 :: Sentech.image_shape (480, 640)
            :: calls /\
        forall shape, ~ In (Sentech.image_shape shape) calls).
Proof.
  destruct (image_shape_axis_order 0 None None None None (Some 30%Q) false
              None) as [Hres Hcrop].
  split.
  - exact (Hres (Some [640; 480]) None 640 480 [] eq_refl eq_refl).
  - exact (Hcrop (Some [640; 480]) (Some [0; 640; 0; 480]) 0 640 0 480 []
             eq_refl eq_refl).
Defined.

(** ** The constructor of the generic video backend *)

(** C5 (file-source marker): with [device = -1] the constructor fails
    before the base class is initialised and before anything is printed,
    so no object is built; but the exception it raises is [NameError],
    because the name [DLCLiveCameraError] is not bound in the module,
    where the read path of the same module raises [CameraError]. *)
Theorem init_file_source_marker
  (Camera__init__ :
     Z -> option (list Z) -> option Z -> option Q -> option (list Z) ->
     option Q -> bool -> option Q -> Py.result MacOpenCV.Camera)
  (resolution : option (list Z)) (auto_exposure exposure gain : option Z)
  (rotate : option Q) (crop : option (list Z)) (fps : option Q)
  (display : bool) (display_resize : option Q) :
  MacOpenCV.__init__ Camera__init__ (-1) resolution auto_exposure exposure
    gain rotate crop fps display display_resize
  = ([], inl (Py.NameError "DLCLiveCameraError"))
  /\ MacOpenCV.raise_named "CameraError"
       "OpenCV VideoCapture.read did not return an image!"
     = Py.CameraError "OpenCV VideoCapture.read did not return an image!".
Proof.
  split; reflexivity.
Qed.

(** ** Slices and frames *)

Lemma slice_in_range {A : Type} (a b : Z) (l : list A) :
  0 <= a <= b -> b <= Z.of_nat (List.length l) ->
  Py.slice a b l = firstn (Z.to_nat (b - a)) (skipn (Z.to_nat a) l).
Proof.
  intros Hab Hb. unfold Py.slice, Py.slice_bound.
  destruct (Z.ltb_spec a 0); [lia|]. destruct (Z.ltb_spec b 0); [lia|].
  now rewrite !Z.min_l by lia.
Qed.

Lemma slice_length {A : Type} (a b : Z) (l : list A) :
  0 <= a <= b -> b <= Z.of_nat (List.length l) ->
  Z.of_nat (List.length (Py.slice a b l)) = b - a.
Proof.
  intros Hab Hb. rewrite slice_in_range by assumption.
  rewrite length_firstn, length_skipn. lia.
Qed.

Lemma slice_nth {A : Type} (a b i : Z) (l : list A) :
  0 <= a <= b -> b <= Z.of_nat (List.length l) -> 0 <= i < b - a ->
  nth_error (Py.slice a b l) (Z.to_nat i) = nth_error l (Z.to_nat (a + i)).
Proof.
  intros Hab Hb Hi. rewrite slice_in_range by assumption.
  rewrite nth_error_firstn, nth_error_skipn.
  destruct (Nat.ltb_spec (Z.to_nat i) (Z.to_nat (b - a))); [|lia].
  f_equal. lia.
Qed.

Lemma slice_incl {A : Type} (a b : Z) (l : list A) (x : A) :
  In x (Py.slice a b l) -> In x l.
Proof.
  unfold Py.slice. intros H.
  set (n := Z.to_nat _) in H. set (k := Z.to_nat _) in H.
  rewrite <- (firstn_skipn k l). apply in_or_app. right.
  rewrite <- (firstn_skipn n (skipn k l)). apply in_or_app. now left.
Qed.

Lemma grid_slice_shape {A : Type} (t b l r h w : Z) (g : grid A) :
  grid_shape g h w -> 0 <= t <= b -> b <= h -> 0 <= l <= r -> r <= w ->
  grid_shape (grid_slice t b l r g) (b - t) (r - l).
Proof.
  intros [Hh Hw] Htb Hb Hlr Hr. unfold grid_slice. split.
  - rewrite length_map. apply slice_length; lia.
  - apply Forall_map. apply Forall_forall. intros row Hin.
    apply slice_incl in Hin. rewrite Forall_forall in Hw.
    apply slice_length; [lia|]. rewrite (Hw row Hin). lia.
Qed.

Lemma grid_slice_cell {A : Type} (t b l r h w i j : Z) (g : grid A) :
  grid_shape g h w -> 0 <= t <= b -> b <= h -> 0 <= l <= r -> r <= w ->
  0 <= i < b - t -> 0 <= j < r - l ->
  grid_cell (grid_slice t b l r g) i j = grid_cell g (t + i) (l + j).
Proof.
  intros [Hh Hw] Htb Hb Hlr Hr Hi Hj. unfold grid_cell, grid_slice.
  destruct (Z.ltb_spec i 0); [lia|]. destruct (Z.ltb_spec j 0); [lia|].
  destruct (Z.ltb_spec (t + i) 0); [lia|].
  destruct (Z.ltb_spec (l + j) 0); [lia|]. cbn [orb].
  rewrite nth_error_map, slice_nth by lia.
  destruct (nth_error g (Z.to_nat (t + i))) as [row|] eqn:E;
    cbn [option_map]; [|reflexivity].
  apply slice_nth; [lia| |lia].
  rewrite Forall_forall in Hw.
  rewrite (Hw row (nth_error_In _ _ E)). lia.
Qed.

Lemma nd_slice_shape (t b l r h w : Z) (a : ndarray) :
  nd_shape a h w -> 0 <= t <= b -> b <= h -> 0 <= l <= r -> r <= w ->
  nd_shape (nd_slice t b l r a) (b - t) (r - l).
Proof.
  destruct a; cbn [nd_shape nd_slice]; apply grid_slice_shape.
Qed.

Lemma nd_slice_cell (t b l r h w i j : Z) (a : ndarray) :
  nd_shape a h w -> 0 <= t <= b -> b <= h -> 0 <= l <= r -> r <= w ->
  0 <= i < b - t -> 0 <= j < r - l ->
  nd_cell (nd_slice t b l r a) i j = nd_cell a (t + i) (l + j).
Proof.
  destruct a; cbn [nd_shape nd_slice nd_cell]; intros;
    erewrite grid_slice_cell; eauto.
Qed.

Lemma mapM_length {A B : Type} (f : A -> Py.result B) (l : list A) :
  forall l', mapM f l = inr l' -> List.length l' = List.length l.
Proof.
  induction l as [|a l IH]; cbn [mapM]; intros l'.
  - now intros [= <-].
  - destruct (f a) as [e|b']; cbn [Py.bind]; [discriminate|].
    destruct (mapM f l) as [e|bs]; cbn [Py.bind Py.ret]; [discriminate|].
    intros [= <-]. cbn [List.length]. f_equal. now apply IH.
Qed.

Lemma mapM_Forall {A B : Type} (f : A -> Py.result B) (P : A -> Prop)
  (Q : B -> Prop) (l : list A) :
  (forall a b', P a -> f a = inr b' -> Q b') ->
  forall l', Forall P l -> mapM f l = inr l' -> Forall Q l'.
Proof.
  intros HPQ. induction l as [|a l IH]; cbn [mapM]; intros l' HP.
  - intros [= <-]. constructor.
  - inversion HP as [|? ? Ha Hl]; subst.
    destruct (f a) as [e|b'] eqn:Ea; cbn [Py.bind]; [discriminate|].
    destruct (mapM f l) as [e|bs]; cbn [Py.bind Py.ret]; [discriminate|].
    intros [= <-]. constructor; eauto.
Qed.

Lemma mapM_total {A B : Type} (f : A -> Py.result B) (g : A -> B)
  (P : A -> Prop) (l : list A) :
  (forall a, P a -> f a = inr (g a)) ->
  Forall P l -> mapM f l = inr (map g l).
Proof.
  intros Hf. induction 1 as [|a l Ha _ IH]; cbn [mapM map].
  - reflexivity.
  - now rewrite (Hf a Ha), IH.
Qed.

Lemma cvtColor_shape (a out : ndarray) (h w : Z) :
  cvtColor_RGB2BGR a = inr out -> nd_shape a h w -> nd_shape out h w.
Proof.
  destruct a as [g|g]; cbn [cvtColor_RGB2BGR];
    destruct (grid_empty g); try discriminate.
  - intros [= <-]. cbn [nd_shape]. intros [Hh Hw]. split.
    + now rewrite length_map.
    + apply Forall_map. eapply Forall_impl; [|exact Hw]. cbn beta.
      intros row Hrow. now rewrite length_map.
  - destruct (mapM (mapM swap_RB) g) as [e|g'] eqn:E;
      cbn [Py.bind Py.ret]; [discriminate|].
    intros [= <-]. cbn [nd_shape]. intros [Hh Hw]. split.
    + now rewrite (mapM_length _ _ _ E).
    + eapply mapM_Forall; [|exact Hw|exact E].
      cbn beta. intros row row' Hrow Hm.
      now rewrite (mapM_length _ _ _ Hm).
Qed.

Lemma cvtColor_three_channels (g : grid (list Z)) :
  grid_empty g = false ->
  Forall (Forall (fun px => List.length px = 3%nat)) g ->
  cvtColor_RGB2BGR (Arr3 g) = inr (Arr3 (map (map (@rev Z)) g)).
Proof.
  intros He H. cbn [cvtColor_RGB2BGR]. rewrite He.
  rewrite (mapM_total (mapM swap_RB) (map (@rev Z))
             (Forall (fun px => List.length px = 3%nat))); auto.
  intros row Hrow.
  apply (mapM_total swap_RB (@rev Z)
           (fun px => List.length px = 3%nat)); auto.
  intros [|c0 [|c1 [|c2 [|c3 px]]]]; try discriminate. reflexivity.
Qed.

Lemma np_uint8_bytes (a : ndarray) : nd_bytes a -> np_uint8 a = a.
Proof.
  destruct a as [g|g]; cbn [nd_bytes np_uint8]; intros H; f_equal.
  - rewrite <- (map_id g) at 2. apply map_ext_Forall.
    eapply Forall_impl; [|exact H]. cbn beta. intros row Hrow.
    rewrite <- (map_id row) at 2. apply map_ext_Forall.
    eapply Forall_impl; [|exact Hrow]. cbn beta. intros v Hv.
    now apply Z.mod_small.
  - rewrite <- (map_id g) at 2. apply map_ext_Forall.
    eapply Forall_impl; [|exact H]. cbn beta. intros row Hrow.
    rewrite <- (map_id row) at 2. apply map_ext_Forall.
    eapply Forall_impl; [|exact Hrow]. cbn beta. intros px Hpx.
    rewrite <- (map_id px) at 2. apply map_ext_Forall.
    eapply Forall_impl; [|exact Hpx]. cbn beta. intros v Hv.
    now apply Z.mod_small.
Qed.

(** ** The read path of the generic video backend *)

Section MacFrames.

Variable rotate_bound : ndarray -> Q -> ndarray.

Lemma read_and_normalize_returned (self self' : MacOpenCV.Mac_OpenCVCam)
  (clk : list Q) (dev : list (option ndarray))
  (w' : World (option ndarray)) (frame : ndarray) (ts : Q) :
  MacOpenCV.read_and_normalize rotate_bound self clk dev
    = Some (self', w', inr (frame, ts)) ->
  exists raw,
    dev = Some raw :: device w' /\
    clk = ts :: clock w' /\
    MacOpenCV.normalize rotate_bound self raw = inr frame /\
    self' = MacOpenCV.with_last_cap_read self ts.
Proof.
  unfold MacOpenCV.read_and_normalize.
  destruct dev as [|[raw|] dev']; try discriminate.
  destruct (MacOpenCV.normalize rotate_bound self raw) as [e|f] eqn:E;
    [discriminate|].
  destruct clk as [|t clk']; [discriminate|].
  intros [= <- <- <- <-]. now exists raw.
Qed.

Lemma mac_get_image_on_time_returned (self self' : MacOpenCV.Mac_OpenCVCam)
  (w w' : World (option ndarray)) (frame : ndarray) (ts : Q) :
  MacOpenCV.get_image_on_time rotate_bound self w
    = Some (self', w', inr (frame, ts)) ->
  exists raw,
    device w = Some raw :: device w' /\
    MacOpenCV.normalize rotate_bound self raw = inr frame /\
    self' = MacOpenCV.with_last_cap_read self ts.
Proof.
  unfold MacOpenCV.get_image_on_time.
  destruct (MacOpenCV.video self).
  - destruct (MacOpenCV.wait self (clock w)) as [[clk [e|[]]]|];
      try discriminate.
    intros H. apply read_and_normalize_returned in H
      as (raw & Hd & _ & Hn & Hs). now exists raw.
  - intros H. apply read_and_normalize_returned in H
      as (raw & Hd & _ & Hn & Hs). now exists raw.
Qed.

Lemma normalize_plain (self : MacOpenCV.Mac_OpenCVCam) (frame : ndarray) :
  Py.truthyQ (MacOpenCV.rotate (MacOpenCV.base self)) = false ->
  Py.truthyL (MacOpenCV.crop (MacOpenCV.base self)) = false ->
  MacOpenCV.normalize rotate_bound self frame
    = MacOpenCV.color_step self frame.
Proof.
  intros Hr Hc.
  unfold MacOpenCV.normalize, MacOpenCV.rotate_step, MacOpenCV.crop_step.
  rewrite Hr, Hc.
  destruct (MacOpenCV.rotate (MacOpenCV.base self));
    destruct (MacOpenCV.crop (MacOpenCV.base self)); reflexivity.
Qed.

Lemma color_step_shape (self : MacOpenCV.Mac_OpenCVCam)
  (frame out : ndarray) (h w : Z) :
  MacOpenCV.color_step self frame = inr out ->
  nd_shape frame h w -> nd_shape out h w.
Proof.
  unfold MacOpenCV.color_step.
  destruct (ndim frame =? 3); [|now intros [= <-]].
  destruct (MacOpenCV.cv2_color self) as [m|]; [|discriminate].
  destruct (Qeq_bool m 1); [apply cvtColor_shape | now intros [= <-]].
Qed.

(** C7 (crop step): with a crop rectangle [(left, right, top, bottom)] and
    a rotated frame of [h] rows and [w] columns that contains it, the crop
    step returns rows [top .. bottom-1] and columns [left .. right-1] of
    that frame: [bottom - top] rows of [right - left] cells, cell [(i, j)]
    being cell [(top + i, left + j)] of the rotated frame; and the frame
    that normalisation returns has that shape, whatever [h] and [w] are. *)
Theorem crop_selects_rectangle (self : MacOpenCV.Mac_OpenCVCam)
  (raw : ndarray) (left right top bottom h w : Z) :
  MacOpenCV.crop (MacOpenCV.base self) = Some [left; right; top; bottom] ->
  nd_shape (MacOpenCV.rotate_step rotate_bound self raw) h w ->
  0 <= top <= bottom -> bottom <= h ->
  0 <= left <= right -> right <= w ->
  exists cropped,
    MacOpenCV.crop_step self (MacOpenCV.rotate_step rotate_bound self raw)
      = inr cropped /\
    nd_shape cropped (bottom - top) (right - left) /\
    (forall i j,
       0 <= i < bottom - top -> 0 <= j < right - left ->
       nd_cell cropped i j
       = nd_cell (MacOpenCV.rotate_step rotate_bound self raw)
           (top + i) (left + j)) /\
    (forall out,
       MacOpenCV.normalize rotate_bound self raw = inr out ->
       nd_shape out (bottom - top) (right - left)).
Proof.
  intros Hc Hs Htb Hb Hlr Hr.
  set (rotated := MacOpenCV.rotate_step rotate_bound self raw) in *.
  assert (Hcrop : MacOpenCV.crop_step self rotated
                  = inr (nd_slice top bottom left right rotated)).
  { unfold MacOpenCV.crop_step. rewrite Hc. reflexivity. }
  exists (nd_slice top bottom left right rotated).
  split; [exact Hcrop|]. split; [|split].
  - eapply nd_slice_shape; eauto.
  - intros i j Hi Hj. eapply nd_slice_cell; eauto.
  - intros out. unfold MacOpenCV.normalize. fold rotated. rewrite Hcrop.
    cbn [Py.bind]. intros Hcol.
    eapply color_step_shape; [exact Hcol|].
    eapply nd_slice_shape; eauto.
Qed.

End MacFrames.

(** Cropping rows 1..2 and column 1 out of a 3x3 grey frame. *)
Lemma crop_selects_rectangle_witness :
  exists cropped,
    MacOpenCV.crop_step (mac_cam None (Some [1; 2; 1; 3]) 0)
      (Arr2 [[1; 2; 3]; [4; 5; 6]; [7; 8; 9]]) = inr cropped /\
    nd_shape cropped 2 1 /\
    nd_cell cropped 1 0 = Some [8].
Proof.
  destruct (crop_selects_rectangle no_rotation
              (mac_cam None (Some [1; 2; 1; 3]) 0)
              (Arr2 [[1; 2; 3]; [4; 5; 6]; [7; 8; 9]]) 1 2 1 3 3 3)
    as (cropped & Hc & Hs & Hcell & _).
  - reflexivity.
  - cbn. split; [reflexivity | repeat constructor].
  - lia.
  - lia.
  - lia.
  - lia.
  - exists cropped. split; [exact Hc|]. split; [exact Hs|].
    rewrite (Hcell 1 0) by lia. reflexivity.
Defined.

(** C8, as stated, fails: in colour mode 1 a frame of four channels comes
    back with three, the alpha channel dropped, which is neither the frame
    nor the frame with its channels in another order. *)
Lemma alpha_channel_dropped :
  ~ identity_up_to_channel_order no_rotation (mac_cam (Some 0%Q) None 1).
Proof.
  intros H. destruct (H (Arr3 [[[10; 20; 30; 255]]])) as (out & Hn & Hout).
  injection Hn as <-. destruct Hout as [Heq|Hperm].
  - discriminate Heq.
  - cbn [channels_permuted] in Hperm.
    inversion Hperm as [|row row' g g' Hrow _]; subst.
    inversion Hrow as [|px px' r r' Hpx _]; subst.
    apply Permutation_length in Hpx. discriminate Hpx.
Qed.

(** C8, amended (no rotation, no crop): when [rotate] is zero or unset and
    [crop] is unset, normalisation returns a frame without a colour axis
    unchanged, and any frame unchanged when the colour mode of the device
    is not 1.  For a frame with a colour axis in mode 1 it is
    [cv2.cvtColor(frame, COLOR_RGB2BGR)], whatever the number of channels;
    on a frame of three channels that is not empty, this is the frame with
    the first and third channel of every cell exchanged, cell positions
    unchanged. *)
Theorem normalize_identity_up_to_swap
  (rotate_bound : ndarray -> Q -> ndarray)
  (self : MacOpenCV.Mac_OpenCVCam) (mode : Q) :
  Py.truthyQ (MacOpenCV.rotate (MacOpenCV.base self)) = false ->
  Py.truthyL (MacOpenCV.crop (MacOpenCV.base self)) = false ->
  MacOpenCV.cv2_color self = Some mode ->
  (forall f,
     ndim f = 2 -> MacOpenCV.normalize rotate_bound self f = inr f)
  /\ (forall f,
        Qeq_bool mode 1 = false ->
        MacOpenCV.normalize rotate_bound self f = inr f)
  /\ (forall f,
        ndim f = 3 ->
        Qeq_bool mode 1 = true ->
        MacOpenCV.normalize rotate_bound self f = cvtColor_RGB2BGR f)
  /\ (forall g,
        Qeq_bool mode 1 = true ->
        grid_empty g = false ->
        Forall (Forall (fun px => List.length px = 3%nat)) g ->
        MacOpenCV.normalize rotate_bound self (Arr3 g)
        = inr (Arr3 (map (map (@rev Z)) g))).
Proof.
  intros Hr Hc Hm. split; [|split; [|split]].
  - intros f H2. rewrite normalize_plain by assumption.
    unfold MacOpenCV.color_step. now rewrite H2.
  - intros f Hne. rewrite normalize_plain by assumption.
    unfold MacOpenCV.color_step. rewrite Hm, Hne.
    now destruct (ndim f =? 3).
  - intros f H3 He. rewrite normalize_plain by assumption.
    unfold MacOpenCV.color_step. now rewrite H3, Hm, He.
  - intros g He Hne H3. rewrite normalize_plain by assumption.
    unfold MacOpenCV.color_step. cbn [ndim Z.eqb Pos.eqb].
    rewrite Hm, He. now apply cvtColor_three_channels.
Qed.

Lemma normalize_identity_up_to_swap_witness :
  MacOpenCV.normalize no_rotation (mac_cam (Some 0%Q) None 1) grey22
    = inr grey22
  /\ MacOpenCV.normalize no_rotation (mac_cam (Some 0%Q) None 0) colour12
     = inr colour12
  /\ MacOpenCV.normalize no_rotation (mac_cam (Some 0%Q) None 1)
       (Arr3 [[[10; 20; 30; 255]]])
     = cvtColor_RGB2BGR (Arr3 [[[10; 20; 30; 255]]])
  /\ MacOpenCV.normalize no_rotation (mac_cam (Some 0%Q) None 1) colour12
     = inr (Arr3 [[[30; 20; 10]; [60; 50; 40]]]).
Proof.
  destruct (normalize_identity_up_to_swap no_rotation
              (mac_cam (Some 0%Q) None 1) 1 eq_refl eq_refl eq_refl)
    as (Hgrey & _ & Hcvt & Hswap).
  destruct (normalize_identity_up_to_swap no_rotation
              (mac_cam (Some 0%Q) None 0) 0 eq_refl eq_refl eq_refl)
    as (_ & Hmode & _).
  split; [|split; [|split]].
  - now apply Hgrey.
  - now apply Hmode.
  - now apply Hcvt.
  - apply (Hswap [[[10; 20; 30]; [40; 50; 60]]] eq_refl eq_refl).
    repeat constructor.
Defined.

(** ** Failed acquisitions *)

(** C9, as stated, fails for the SDK backend: when the grab fails with
    the SDK's own exception, that exception is what [get_image_on_time]
    raises, not [CameraError]. *)
Lemma failed_grab_raises_sdk_exception :
  ~ failed_grab_raises_CameraError sentech10
      (mkWorld [1%Q] [inl (Py.SdkError "grab failed")]).
Proof.
  intros H. destruct (H _ _ _ _ _ eq_refl eq_refl) as [msg Hmsg].
  discriminate Hmsg.
Qed.

(** C9, amended (failed acquisition): when the one acquisition attempt of
    a call fails, [get_image_on_time] raises at once, without another
    attempt, and leaves the object as it was.  In the generic video
    backend a read that delivers no frame raises [CameraError], after one
    read of the device and with [last_cap_read] unchanged.  In the SDK
    backend the exception of the failed grab itself is raised, whatever
    it is, after one grab and with [next_frame] unchanged. *)
Theorem failed_acquisition_leaves_state
  (rotate_bound : ndarray -> Q -> ndarray) :
  (forall (self : MacOpenCV.Mac_OpenCVCam) (w : World (option ndarray))
          (clk : list Q) (dev' : list (option ndarray)),
     (if MacOpenCV.video self
      then MacOpenCV.wait self (clock w) = Some (clk, inr tt)
      else clk = clock w) ->
     device w = None :: dev' ->
     MacOpenCV.get_image_on_time rotate_bound self w
     = Some (self, mkWorld clk dev',
             inl (Py.CameraError
                    "OpenCV VideoCapture.read did not return an image!")))
  /\ (forall (self : Sentech.SentechCam) (w : World (Py.result ndarray))
             (pre post : list Q) (now : Q) (e : Py.exn)
             (dev' : list (Py.result ndarray)),
        clock w = pre ++ now :: post ->
        Forall (fun x => (x <= Sentech.next_frame self)%Q) pre ->
        (Sentech.next_frame self < now)%Q ->
        device w = inl e :: dev' ->
        Sentech.get_image_on_time self w
        = Some (self, mkWorld post dev', inl e)).
Proof.
  split.
  - intros self w clk dev' Hw Hd. unfold MacOpenCV.get_image_on_time.
    destruct (MacOpenCV.video self).
    + rewrite Hw, Hd. reflexivity.
    + subst clk. rewrite Hd. reflexivity.
  - intros self w pre post now e dev' Hc Hpre Hnow Hd.
    unfold Sentech.get_image_on_time. rewrite Hc, Hd.
    now rewrite poll_terminates.
Qed.

Lemma failed_acquisition_leaves_state_witness :
  MacOpenCV.get_image_on_time no_rotation (mac_cam None None 0)
    (mkWorld [1; 2]%Q [None; Some grey22])
  = Some (mac_cam None None 0, mkWorld [1; 2]%Q [Some grey22],
          inl (Py.CameraError
                 "OpenCV VideoCapture.read did not return an image!"))
  /\ Sentech.get_image_on_time sentech10
       (mkWorld [0; 1; 2]%Q [inl (Py.SdkError "grab failed"); inr grey22])
     = Some (sentech10, mkWorld [2%Q] [inr grey22],
             inl (Py.SdkError "grab failed")).
Proof.
  destruct (failed_acquisition_leaves_state no_rotation) as [Hmac Hsdk].
  split.
  - apply (Hmac (mac_cam None None 0)
             (mkWorld [1; 2]%Q [None; Some grey22])); reflexivity.
  - apply (Hsdk sentech10
             (mkWorld [0; 1; 2]%Q
                [inl (Py.SdkError "grab failed"); inr grey22])
             [0%Q] [2%Q] 1%Q).
    + reflexivity.
    + repeat constructor. discriminate.
    + reflexivity.
    + reflexivity.
Defined.

(** ** The two backends compared *)

(** C1, as stated, fails: with [crop = [0, 1, 0, 1]] and the same 2x2 raw
    frame, the generic video backend returns the 1x1 crop and the SDK
    backend returns the whole frame. *)
Lemma backends_normalize_differently :
  ~ exists rotate_bound, same_normalization rotate_bound.
Proof.
  intros [rb H].
  specialize (H (mac_cam None (Some [0; 1; 0; 1]) 0) _ sentech_cropped _
                grey22 _ _ _ _
                (mkWorld [1%Q] [Some grey22]) _
                (mkWorld [1%Q] [inr grey22]) _
                eq_refl eq_refl eq_refl eq_refl eq_refl eq_refl eq_refl
                eq_refl eq_refl).
  discriminate H.
Qed.

Lemma normalize_steps (rotate_bound : ndarray -> Q -> ndarray)
  (m : MacOpenCV.Mac_OpenCVCam) (raw fm : ndarray) :
  MacOpenCV.normalize rotate_bound m raw = inr fm ->
  exists rotated cropped,
    (Py.truthyQ (MacOpenCV.rotate (MacOpenCV.base m)) = false ->
     rotated = raw) /\
    (forall angle,
       MacOpenCV.rotate (MacOpenCV.base m) = Some angle ->
       Qeq_bool angle 0 = false ->
       rotated = rotate_bound raw angle) /\
    (Py.truthyL (MacOpenCV.crop (MacOpenCV.base m)) = false ->
     cropped = rotated) /\
    (forall c,
       MacOpenCV.crop (MacOpenCV.base m) = Some c -> c <> [] ->
       exists left right top bottom rest,
         c = left :: right :: top :: bottom :: rest /\
         cropped = nd_slice top bottom left right rotated) /\
    (ndim cropped = 2 -> fm = cropped) /\
    (ndim cropped = 3 ->
     exists mode,
       MacOpenCV.cv2_color m = Some mode /\
       (Qeq_bool mode 1 = false -> fm = cropped) /\
       (Qeq_bool mode 1 = true -> cvtColor_RGB2BGR cropped = inr fm)).
Proof.
  unfold MacOpenCV.normalize. intros Hn.
  destruct (MacOpenCV.crop_step m _) as [e|cropped] eqn:Ec;
    cbn [Py.bind] in Hn; [discriminate|].
  exists (MacOpenCV.rotate_step rotate_bound m raw), cropped.
  split; [|split; [|split; [|split; [|split]]]].
  - intros Hr. unfold MacOpenCV.rotate_step. rewrite Hr.
    now destruct (MacOpenCV.rotate (MacOpenCV.base m)).
  - intros angle Ha Hnz. unfold MacOpenCV.rotate_step. rewrite Ha.
    cbn [Py.truthyQ]. now rewrite Hnz.
  - intros Hc. unfold MacOpenCV.crop_step in Ec. rewrite Hc in Ec.
    destruct (MacOpenCV.crop (MacOpenCV.base m)); now injection Ec as <-.
  - intros c Hc Hne. unfold MacOpenCV.crop_step in Ec. rewrite Hc in Ec.
    destruct c as [|left [|right [|top [|bottom rest]]]];
      try discriminate Ec; [contradiction|].
    cbn in Ec. injection Ec as <-.
    now exists left, right, top, bottom, rest.
  - intros H2. unfold MacOpenCV.color_step in Hn. rewrite H2 in Hn.
    now injection Hn as <-.
  - intros H3. unfold MacOpenCV.color_step in Hn. rewrite H3 in Hn.
    cbn [Z.eqb Pos.eqb] in Hn.
    destruct (MacOpenCV.cv2_color m) as [mode|]; [|discriminate].
    exists mode. split; [reflexivity|].
    destruct (Qeq_bool mode 1); split; intros E; try discriminate E.
    + exact Hn.
    + now injection Hn as <-.
Qed.

(** C1, amended (post-processing of the two backends): a successful
    [get_image_on_time] of the generic video backend returns the raw frame
    rotated by [rotate_bound] when [rotate] is set and not zero, then cut
    to rows [top .. bottom-1] and columns [left .. right-1] when [crop] is
    set, then converted with [cv2.cvtColor] when it has a colour axis and
    the colour mode is 1; a successful [get_image_on_time] of the SDK
    backend returns the raw frame converted to [uint8], with no rotation,
    crop or channel correction.  The two agree on a frame of bytes when
    rotation and crop are unset and no channel conversion applies. *)
Theorem backend_post_processing (rotate_bound : ndarray -> Q -> ndarray) :
  (forall (m m' : MacOpenCV.Mac_OpenCVCam) (wm wm' : World (option ndarray))
          (fm : ndarray) (tm : Q),
     MacOpenCV.get_image_on_time rotate_bound m wm
       = Some (m', wm', inr (fm, tm)) ->
     exists raw rotated cropped,
       device wm = Some raw :: device wm' /\
       (Py.truthyQ (MacOpenCV.rotate (MacOpenCV.base m)) = false ->
        rotated = raw) /\
       (forall angle,
          MacOpenCV.rotate (MacOpenCV.base m) = Some angle ->
          Qeq_bool angle 0 = false ->
          rotated = rotate_bound raw angle) /\
       (Py.truthyL (MacOpenCV.crop (MacOpenCV.base m)) = false ->
        cropped = rotated) /\
       (forall c,
          MacOpenCV.crop (MacOpenCV.base m) = Some c -> c <> [] ->
          exists left right top bottom rest,
            c = left :: right :: top :: bottom :: rest /\
            cropped = nd_slice top bottom left right rotated) /\
       (ndim cropped = 2 -> fm = cropped) /\
       (ndim cropped = 3 ->
        exists mode,
          MacOpenCV.cv2_color m = Some mode /\
          (Qeq_bool mode 1 = false -> fm = cropped) /\
          (Qeq_bool mode 1 = true -> cvtColor_RGB2BGR cropped = inr fm)))
  /\ (forall (s s' : Sentech.SentechCam)
             (ws ws' : World (Py.result ndarray)) (fs : ndarray) (ts : Q),
        Sentech.get_image_on_time s ws = Some (s', ws', inr (fs, ts)) ->
        exists raw,
          device ws = inr raw :: device ws' /\ fs = np_uint8 raw)
  /\ (forall (m : MacOpenCV.Mac_OpenCVCam) (raw : ndarray),
        Py.truthyQ (MacOpenCV.rotate (MacOpenCV.base m)) = false ->
        Py.truthyL (MacOpenCV.crop (MacOpenCV.base m)) = false ->
        nd_bytes raw ->
        (ndim raw = 2 \/
         exists mode,
           MacOpenCV.cv2_color m = Some mode /\ Qeq_bool mode 1 = false) ->
        MacOpenCV.normalize rotate_bound m raw = inr (np_uint8 raw)).
Proof.
  split; [|split].
  - intros m m' wm wm' fm tm H.
    apply mac_get_image_on_time_returned in H as (raw & Hd & Hn & _).
    apply normalize_steps in Hn as (rotated & cropped & Hsteps).
    now exists raw, rotated, cropped.
  - intros s s' ws ws' fs ts H.
    apply get_image_on_time_returned in H
      as (pre & raw & F & _ & Hd & _ & _ & Hf & _).
    now exists raw.
  - intros m raw Hr Hc Hb Hsw.
    rewrite normalize_plain, np_uint8_bytes by assumption.
    unfold MacOpenCV.color_step.
    destruct Hsw as [H2|(mode & Hm & Hne)].
    + now rewrite H2.
    + rewrite Hm, Hne. now destruct (ndim raw =? 3).
Qed.

(** A frame turned by 180 degrees and then cut to its first cell; a grab
    of the SDK backend; and a frame on which the two backends agree. *)
Lemma backend_post_processing_witness :
  (exists raw rotated cropped,
     [Some grey22] = Some raw :: [] /\
     rotated = sample_rotate raw 180 /\
     cropped = nd_slice 0 1 0 1 rotated /\
     Arr2 [[4]] = cropped)
  /\ (exists raw,
        [inr grey22] = @inr Py.exn ndarray raw :: [] /\
        grey22 = np_uint8 raw)
  /\ MacOpenCV.normalize no_rotation (mac_cam None None 0) grey22
     = inr (np_uint8 grey22).
Proof.
  destruct (backend_post_processing no_rotation) as (_ & Hsdk & Hsame).
  destruct (backend_post_processing sample_rotate) as (Hmac & _ & _).
  split; [|split].
  - destruct (Hmac (mac_cam (Some 180%Q) (Some [0; 1; 0; 1]) 0) _
                (mkWorld [1%Q] [Some grey22]) _ _ _ eq_refl)
      as (raw & rotated & cropped & Hd & _ & Hrot & _ & Hcrop & Hgrey & _).
    exists raw, rotated, cropped. split; [exact Hd|].
    pose proof (Hrot 180%Q eq_refl eq_refl) as Hr.
    destruct (Hcrop [0; 1; 0; 1] eq_refl ltac:(discriminate))
      as (l & r & t & b & rest & [= <- <- <- <- <-] & Hc).
    split; [exact Hr|]. split; [exact Hc|].
    apply Hgrey. rewrite Hc, Hr. injection Hd as <-. reflexivity.
  - exact (Hsdk sentech_cropped _ (mkWorld [1%Q] [inr grey22]) _ _ _
             eq_refl).
  - apply (Hsame (mac_cam None None 0) grey22).
    + reflexivity.
    + reflexivity.
    + cbn. repeat constructor; lia.
    + now left.
Defined.

(** ** Further properties of the SDK backend *)

(** The call returns: once the clock shows a reading past the deadline and
    the grab delivers a frame, [get_image_on_time] at a non-zero frame
    rate returns that frame, stamped with that reading, having taken the
    clock readings up to it and one grab. *)
Theorem get_image_on_time_returns (self : Sentech.SentechCam)
  (w : World (Py.result ndarray)) (pre post : list Q) (now F : Q)
  (raw : ndarray) (dev' : list (Py.result ndarray)) :
  clock w = pre ++ now :: post ->
  Forall (fun x => (x <= Sentech.next_frame self)%Q) pre ->
  (Sentech.next_frame self < now)%Q ->
  device w = inr raw :: dev' ->
  Sentech.fps self = Some F ->
  Qeq_bool F 0 = false ->
  Sentech.get_image_on_time self w
  = Some (Sentech.with_next_frame self
            (Py.max (Sentech.next_frame self + 1 / F)
                    (now + (1 # 2) / F))%Q,
          mkWorld post dev', inr (np_uint8 raw, now)).
Proof.
  intros Hc Hpre Hnow Hd HF Hnz.
  unfold Sentech.get_image_on_time. rewrite Hc, Hd.
  rewrite poll_terminates by assumption.
  unfold Sentech.acquire, Sentech.get_image, Py.div. cbn [Py.bind Py.ret].
  rewrite HF, Hnz. reflexivity.
Qed.

Lemma get_image_on_time_returns_witness :
  Sentech.get_image_on_time sentech10 (mkWorld [0; 1 # 20; 1]%Q [inr grey22])
  = Some (Sentech.with_next_frame sentech10
            (Py.max (0 + 1 / 10) ((1 # 20) + (1 # 2) / 10))%Q,
          mkWorld [1%Q] [], inr (np_uint8 grey22, (1 # 20)%Q)).
Proof.
  apply (get_image_on_time_returns sentech10
           (mkWorld [0; 1 # 20; 1]%Q [inr grey22]) [0%Q] [1%Q]
           (1 # 20)%Q 10%Q grey22 []).
  - reflexivity.
  - repeat constructor. discriminate.
  - reflexivity.
  - reflexivity.
  - reflexivity.
  - reflexivity.
Defined.

(** Without a usable frame rate the frame is lost: when [fps] is [None]
    (the default of the constructor) or zero, a call whose deadline has
    passed grabs a frame and then raises [TypeError], respectively
    [ZeroDivisionError], in the deadline update; the frame is dropped and
    the object is unchanged. *)
Theorem unusable_fps_drops_frame (self : Sentech.SentechCam)
  (w : World (Py.result ndarray)) (pre post : list Q) (now : Q)
  (raw : ndarray) (dev' : list (Py.result ndarray)) :
  clock w = pre ++ now :: post ->
  Forall (fun x => (x <= Sentech.next_frame self)%Q) pre ->
  (Sentech.next_frame self < now)%Q ->
  device w = inr raw :: dev' ->
  Py.truthyQ (Sentech.fps self) = false ->
  Sentech.get_image_on_time self w
  = Some (self, mkWorld post dev',
          inl (match Sentech.fps self with
               | None => Py.TypeError
               | Some _ => Py.ZeroDivisionError
               end)).
Proof.
  intros Hc Hpre Hnow Hd Hf.
  unfold Sentech.get_image_on_time. rewrite Hc, Hd.
  rewrite poll_terminates by assumption.
  unfold Sentech.acquire, Sentech.get_image, Py.div. cbn [Py.bind Py.ret].
  destruct (Sentech.fps self) as [F|]; [|reflexivity].
  cbn [Py.truthyQ] in Hf. apply negb_false_iff in Hf. now rewrite Hf.
Qed.

Lemma unusable_fps_drops_frame_witness :
  Sentech.get_image_on_time
    (Sentech.mkSentechCam 0 None None None None None (640, 480) None
       false 1 0)
    (mkWorld [1%Q] [inr grey22; inr grey22])
  = Some (Sentech.mkSentechCam 0 None None None None None (640, 480)
            None false 1 0,
          mkWorld [] [inr grey22], inl Py.TypeError).
Proof.
  apply (unusable_fps_drops_frame
           (Sentech.mkSentechCam 0 None None None None None (640, 480) None
              false 1 0)
           (mkWorld [1%Q] [inr grey22; inr grey22]) [] [] 1%Q grey22
           [inr grey22]).
  - reflexivity.
  - constructor.
  - reflexivity.
  - reflexivity.
  - reflexivity.
Defined.

(** Cadence of the deadline: after a frame at a positive frame rate [F],
    a reading that came at most half a period after the old deadline moves
    the deadline by exactly one period; a later reading moves it to half a
    period after that reading; either way the deadline moves forward by at
    least one period. *)
Theorem deadline_cadence (self self' : Sentech.SentechCam)
  (w w' : World (Py.result ndarray)) (frame : ndarray) (now F : Q) :
  Sentech.fps self = Some F ->
  (0 < F)%Q ->
  Sentech.get_image_on_time self w = Some (self', w', inr (frame, now)) ->
  ((now <= Sentech.next_frame self + (1 # 2) / F)%Q ->
   Sentech.next_frame self' = (Sentech.next_frame self + 1 / F)%Q)
  /\ ((Sentech.next_frame self + (1 # 2) / F < now)%Q ->
      Sentech.next_frame self' = (now + (1 # 2) / F)%Q)
  /\ (Sentech.next_frame self + 1 / F <= Sentech.next_frame self')%Q.
Proof.
  intros HF Hpos H.
  apply get_image_on_time_returned in H
    as (_ & _ & F' & _ & _ & _ & _ & _ & HF' & _ & ->).
  rewrite HF in HF'. injection HF' as <-.
  cbn [Sentech.next_frame Sentech.with_next_frame].
  assert (Hhalf : ((1 # 2) / F + (1 # 2) / F == 1 / F)%Q)
    by (field; intros E; rewrite E in Hpos; discriminate Hpos).
  split; [|split].
  - intros Hle. unfold Py.max.
    destruct (Py.gt _ _) eqn:E; [|reflexivity].
    apply gt_true_iff in E. exfalso.
    generalize dependent ((1 # 2) / F)%Q. intros h E Hle Hhalf.
    generalize dependent (1 / F)%Q. intros p E Hhalf. lra.
  - intros Hlt. unfold Py.max.
    destruct (Py.gt _ _) eqn:E; [reflexivity|].
    apply gt_false_iff in E. exfalso.
    generalize dependent ((1 # 2) / F)%Q. intros h E Hlt Hhalf.
    generalize dependent (1 / F)%Q. intros p E Hhalf. lra.
  - apply max_ge_l.
Qed.

Lemma deadline_cadence_witness :
  Sentech.next_frame
    (Sentech.with_next_frame sentech10
       (Py.max (0 + 1 / 10) ((1 # 20) + (1 # 2) / 10))%Q)
  = (0 + 1 / 10)%Q.
Proof.
  apply (proj1 (deadline_cadence sentech10 _
                  (mkWorld [0; 1 # 20; 1]%Q [inr grey22]) _ grey22
                  (1 # 20)%Q 10%Q eq_refl eq_refl eq_refl)).
  discriminate.
Defined.

Lemma np_uint8_is_bytes (a : ndarray) : nd_bytes (np_uint8 a).
Proof.
  destruct a as [g|g]; cbn [nd_bytes np_uint8].
  - apply Forall_map, Forall_forall. intros row _.
    apply Forall_map, Forall_forall. intros v _.
    now apply Z.mod_pos_bound.
  - apply Forall_map, Forall_forall. intros row _.
    apply Forall_map, Forall_forall. intros px _.
    apply Forall_map, Forall_forall. intros v _.
    now apply Z.mod_pos_bound.
Qed.

Lemma np_uint8_shape (a : ndarray) (h w : Z) :
  nd_shape a h w -> nd_shape (np_uint8 a) h w.
Proof.
  destruct a as [g|g]; cbn [nd_shape np_uint8]; intros [Hh Hw]; split.
  - now rewrite length_map.
  - apply Forall_map. eapply Forall_impl; [|exact Hw]. cbn beta.
    intros row Hrow. now rewrite length_map.
  - now rewrite length_map.
  - apply Forall_map. eapply Forall_impl; [|exact Hw]. cbn beta.
    intros row Hrow. now rewrite length_map.
Qed.

(** Frames of the SDK backend: a frame returned by [get_image_on_time]
    holds only values from 0 to 255, has the number of axes and the shape
    of the grabbed frame, and converting it again changes nothing. *)
Theorem sdk_frame_is_uint8 (self self' : Sentech.SentechCam)
  (w w' : World (Py.result ndarray)) (frame : ndarray) (ts : Q) :
  Sentech.get_image_on_time self w = Some (self', w', inr (frame, ts)) ->
  nd_bytes frame
  /\ np_uint8 frame = frame
  /\ exists raw,
       hd_error (device w) = Some (inr raw) /\
       ndim frame = ndim raw /\
       forall h c, nd_shape raw h c -> nd_shape frame h c.
Proof.
  intros H.
  apply get_image_on_time_returned in H
    as (_ & raw & _ & _ & Hd & _ & _ & -> & _).
  split; [apply np_uint8_is_bytes|].
  split; [apply np_uint8_bytes, np_uint8_is_bytes|].
  exists raw. rewrite Hd. split; [reflexivity|]. split.
  - now destruct raw.
  - intros h c. apply np_uint8_shape.
Qed.

Lemma sdk_frame_is_uint8_witness :
  nd_bytes (Arr2 [[44; 255]]) /\
  np_uint8 (Arr2 [[44; 255]]) = Arr2 [[44; 255]] /\
  exists raw,
    hd_error [@inr Py.exn ndarray (Arr2 [[300; -1]])] = Some (inr raw) /\
    ndim (Arr2 [[44; 255]]) = ndim raw /\
    forall h c, nd_shape raw h c -> nd_shape (Arr2 [[44; 255]]) h c.
Proof.
  exact (sdk_frame_is_uint8 sentech10 _
           (mkWorld [1%Q] [inr (Arr2 [[300; -1]])]) _ _ _ eq_refl).
Defined.

(** What the constructor of the SDK backend guarantees: an object it
    builds has [next_frame = 0], a non-zero [display_resize], and a [crop]
    that is either [None] (also for [crop=[]]) or the list given, with at
    least four entries; and a resolution was given. *)
Theorem sentech_init_invariant (device : Z) (sdk_path : option string)
  (resolution : option (list Z)) (exposure gain : option Z)
  (rotate : option Q) (crop : option (list Z)) (fps : option Q)
  (tk : bool) (resize : option Q) (self : Sentech.SentechCam) :
  Sentech.__init__ device sdk_path resolution exposure gain rotate crop fps
    tk resize = inr self ->
  Sentech.next_frame self = 0%Q
  /\ Qeq_bool (Sentech.display_resize self) 0 = false
  /\ Py.truthyL resolution = true
  /\ (Sentech.crop self = None /\ Py.truthyL crop = false
      \/ Sentech.crop self = crop /\
         exists l r t b rest, crop = Some (l :: r :: t :: b :: rest)).
Proof.
  intros H. pose proof (init_im_size _ _ _ _ _ _ _ _ _ _ _ H) as Hs.
  pose proof (init_result _ _ _ _ _ _ _ _ _ _ _ H) as [Hc Him].
  unfold Sentech.__init__ in H.
  destruct (Sentech.set_im_size _ resolution) as [e|size] eqn:E;
    cbn [Py.bind Py.ret] in H; [discriminate|].
  injection H as <-.
  cbn [Sentech.next_frame Sentech.display_resize Sentech.crop] in *.
  split; [reflexivity|]. split; [|split].
  - destruct resize as [d|]; [|reflexivity]. cbn [Py.truthyQ].
    destruct (Qeq_bool d 0) eqn:Ed; cbn [negb]; [reflexivity | exact Ed].
  - unfold Sentech.set_im_size in E.
    destruct (Py.truthyL resolution); [reflexivity | discriminate E].
  - destruct crop as [[|l [|r [|t [|b rest]]]]|]; try contradiction;
      try (left; now split).
    right. split; [reflexivity|]. now exists l, r, t, b, rest.
Qed.

Lemma sentech_init_invariant_witness :
  exists self,
    Sentech.__init__ 0 None (Some [640; 480]) None None None (Some [])
      None false (Some 0%Q) = inr self /\
    Sentech.next_frame self = 0%Q /\
    Qeq_bool (Sentech.display_resize self) 0 = false /\
    Sentech.crop self = None.
Proof.
  eexists. split; [reflexivity|].
  destruct (sentech_init_invariant 0 None (Some [640; 480]) None None None
              (Some []) None false (Some 0%Q) _ eq_refl)
    as (Hn & Hd & _ & [[Hc _]|[_ (l & r & t & b & rest & Hc)]]).
  - now repeat split.
  - discriminate Hc.
Defined.

(** Index errors of the constructor of the SDK backend: with a resolution
    given, a crop list of one to three entries makes it raise
    [IndexError]; and so does, without a crop, a resolution of a single
    entry. *)
Theorem sentech_init_index_error (device : Z) (sdk_path : option string)
  (resolution : option (list Z)) (exposure gain : option Z)
  (rotate : option Q) (crop : option (list Z)) (fps : option Q)
  (tk : bool) (resize : option Q) :
  Py.truthyL resolution = true ->
  (exists c, crop = Some c /\ (0 < List.length c < 4)%nat)
  \/ (Py.truthyL crop = false /\ exists w, resolution = Some [w]) ->
  Sentech.__init__ device sdk_path resolution exposure gain rotate crop fps
    tk resize = inl Py.IndexError.
Proof.
  intros Hr H. unfold Sentech.__init__, Sentech.set_im_size.
  rewrite Hr. cbn [negb].
  destruct H as [(c & -> & Hlen)|(Hc & w & ->)].
  - destruct c as [|c0 [|c1 [|c2 [|c3 c]]]]; cbn in Hlen; try lia;
      reflexivity.
  - rewrite Hc. reflexivity.
Qed.

Lemma sentech_init_index_error_witness :
  Sentech.__init__ 0 None (Some [640; 480]) None None None
    (Some [0; 100; 0]) None false None = inl Py.IndexError
  /\ Sentech.__init__ 0 None (Some [640]) None None None None None false
       None = inl Py.IndexError.
Proof.
  split.
  - apply sentech_init_index_error; [reflexivity|].
    left. exists [0; 100; 0]. split; [reflexivity | cbn; lia].
  - apply sentech_init_index_error; [reflexivity|].
    right. split; [reflexivity | now exists 640].
Defined.

(** Settings forwarded to the SDK: [set_capture_device] calls
    [exposure] exactly when the exposure attribute is a non-zero number,
    and [gain] exactly when the gain attribute is a non-zero number, each
    with the attribute's value; an exposure or gain of 0 is never sent. *)
Theorem sdk_settings_forwarded (self : Sentech.SentechCam) (v : Z) :
  (In (Sentech.set_exposure v) (Sentech.set_capture_device self)
   <-> Sentech.exposure self = Some v /\ v <> 0)
  /\ (In (Sentech.set_gain v) (Sentech.set_capture_device self)
      <-> Sentech.gain self = Some v /\ v <> 0).
Proof.
  unfold Sentech.set_capture_device. rewrite !in_app_iff.
  assert (He : forall x,
             In x match Sentech.exposure self with
                  | Some e => if Py.truthyZ (Sentech.exposure self)
                              then [Sentech.set_exposure e] else []
                  | None => []
                  end
             <-> exists e, x = Sentech.set_exposure e /\
                           Sentech.exposure self = Some e /\ e <> 0).
  { intros x. destruct (Sentech.exposure self) as [e|]; cbn [Py.truthyZ].
    - destruct (Z.eqb_spec e 0) as [->|Hne]; cbn.
      + split; [contradiction|]. intros (e & _ & [= <-] & Hne). now apply Hne.
      + split.
        * intros [<-|[]]. now exists e.
        * intros (e' & -> & [= <-] & _). now left.
    - cbn. split; [contradiction|]. now intros (e & _ & [=] & _). }
  assert (Hg : forall x,
             In x match Sentech.gain self with
                  | Some g => if Py.truthyZ (Sentech.gain self)
                              then [Sentech.set_gain g] else []
                  | None => []
                  end
             <-> exists g, x = Sentech.set_gain g /\
                           Sentech.gain self = Some g /\ g <> 0).
  { intros x. destruct (Sentech.gain self) as [g|]; cbn [Py.truthyZ].
    - destruct (Z.eqb_spec g 0) as [->|Hne]; cbn.
      + split; [contradiction|]. intros (g & _ & [= <-] & Hne). now apply Hne.
      + split.
        * intros [<-|[]]. now exists g.
        * intros (g' & -> & [= <-] & _). now left.
    - cbn. split; [contradiction|]. now intros (g & _ & [=] & _). }
  split; rewrite He, Hg; cbn [In]; split.
  - intros [[H|[]]|[[H|[]]|[(e & [= <-] & H)|(g & [=] & _)]]];
      try discriminate H. exact H.
  - intros H. right. right. left. now exists v.
  - intros [[H|[]]|[[H|[]]|[(e & [=] & _)|(g & [= <-] & H)]]];
      try discriminate H. exact H.
  - intros H. right. right. right. now exists v.
Qed.

Lemma sdk_settings_forwarded_witness :
  In (Sentech.set_exposure 500)
     (Sentech.set_capture_device
        (Sentech.mkSentechCam 0 None (Some 500) (Some 0) None None
           (640, 480) None false 1 0))
  /\ ~ In (Sentech.set_gain 0)
         (Sentech.set_capture_device
            (Sentech.mkSentechCam 0 None (Some 500) (Some 0) None None
               (640, 480) None false 1 0)).
Proof.
  split.
  - apply (proj1 (sdk_settings_forwarded _ 500)). now split.
  - intros H. apply (proj2 (sdk_settings_forwarded _ 0)) in H.
    now destruct H as [_ H].
Defined.

(** ** Further properties of the generic video backend *)

Lemma flat_map_map {A B C : Type} (g : A -> B) (f : B -> list C)
  (l : list A) :
  flat_map f (map g l) = flat_map (fun x => f (g x)) l.
Proof.
  induction l as [|a l IH]; cbn [map flat_map]; [reflexivity|].
  now rewrite IH.
Qed.

Lemma probe_finds (k : nat) :
  forall (devs : list Z) (rest : list bool),
  MacOpenCV.probe devs (repeat true k ++ false :: rest)
  = Some (devs ++ map (fun i => last devs 0 + Z.of_nat i) (seq 1 k),
          flat_map (fun i => [MacOpenCV.cap_open (last devs 0 + Z.of_nat i)
                                true;
                              MacOpenCV.cap_release]) (seq 1 k)
          ++ [MacOpenCV.cap_open (last devs 0 + Z.of_nat (S k)) false]).
Proof.
  induction k as [|k IH]; intros devs rest.
  - cbn [repeat app MacOpenCV.probe seq map flat_map].
    now rewrite app_nil_r.
  - cbn [repeat app MacOpenCV.probe]. rewrite IH, last_last.
    rewrite <- (seq_shift (S k) 0), <- (seq_shift k 0).
    cbn [seq map flat_map app].
    rewrite <- (seq_shift k 0), !map_map, !flat_map_map, <- app_assoc.
    cbn [app]. do 2 f_equal.
    + do 2 f_equal. apply map_ext. intros i. lia.
    + do 3 f_equal.
      * apply flat_map_ext. intros i. do 2 f_equal. lia.
      * do 2 f_equal. lia.
Qed.

Lemma probed_pairs (l : list nat) (tail : list MacOpenCV.probe_call) :
  MacOpenCV.probed
    (flat_map (fun i => [MacOpenCV.cap_open (Z.of_nat i) true;
                         MacOpenCV.cap_release]) l ++ tail)
  = map Z.of_nat l ++ MacOpenCV.probed tail.
Proof.
  induction l as [|i l IH]; cbn [flat_map app map MacOpenCV.probed];
    [reflexivity|].
  now rewrite IH.
Qed.

Lemma handle_held_pairs (l : list nat) (index : Z) (held : bool) :
  MacOpenCV.handle_held held
    (flat_map (fun i => [MacOpenCV.cap_open (Z.of_nat i) true;
                         MacOpenCV.cap_release]) l
     ++ [MacOpenCV.cap_open index false])
  = false.
Proof.
  revert held.
  induction l as [|i l IH]; intros held;
    cbn [flat_map app MacOpenCV.handle_held]; [reflexivity|].
  apply IH.
Qed.

(** Device probing of [arg_restrictions]: when the devices [1 .. k] open
    and device [k + 1] does not, the call opens and at once releases each
    of [1 .. k] in turn, stops at the failed open of [k + 1], and returns
    the options [{"display": [True, False]}] whatever it found.  Index 0
    is never probed, and no device is held when the call returns.  As long
    as every open succeeds the loop goes on. *)
Theorem arg_restrictions_probe (k : nat) (rest : list bool) :
  MacOpenCV.arg_restrictions (repeat true k ++ false :: rest)
  = Some ([("display"%string, [true; false])], probe_calls k)
  /\ MacOpenCV.probed (probe_calls k) = map Z.of_nat (seq 1 (S k))
  /\ ~ In 0 (MacOpenCV.probed (probe_calls k))
  /\ (forall held, MacOpenCV.handle_held held (probe_calls k) = false)
  /\ MacOpenCV.arg_restrictions (repeat true k) = None.
Proof.
  assert (Hp : MacOpenCV.probed (probe_calls k)
               = map Z.of_nat (seq 1 (S k))).
  { unfold probe_calls. rewrite probed_pairs. cbn [MacOpenCV.probed].
    now rewrite seq_S, map_app. }
  split; [|split; [exact Hp|split; [|split]]].
  - unfold MacOpenCV.arg_restrictions. rewrite probe_finds.
    cbn [last]. unfold probe_calls. do 3 f_equal.
  - rewrite Hp. intros Hin. apply in_map_iff in Hin as (i & Hi & Hin).
    apply in_seq in Hin. lia.
  - intros held. apply handle_held_pairs.
  - unfold MacOpenCV.arg_restrictions.
    assert (H : forall devs, MacOpenCV.probe devs (repeat true k) = None).
    { clear Hp.
      induction k as [|n IH]; intros devs; cbn [repeat MacOpenCV.probe];
        [reflexivity|].
      now rewrite IH. }
    now rewrite H.
Qed.

(** What a successful constructor call of the generic video backend has
    done: the device was not the file marker, its id was printed once,
    the base constructor was called with that id and with [display] as its
    display flag, and the object is in device mode ([video] is false) with
    no colour mode and no read time yet. *)
Theorem mac_init_success
  (Camera__init__ :
     Z -> option (list Z) -> option Z -> option Q -> option (list Z) ->
     option Q -> bool -> option Q -> Py.result MacOpenCV.Camera)
  (device : Z) (resolution : option (list Z))
  (auto_exposure exposure gain : option Z) (rotate : option Q)
  (crop : option (list Z)) (fps : option Q) (display : bool)
  (display_resize : option Q) (out : list Z)
  (self : MacOpenCV.Mac_OpenCVCam) :
  MacOpenCV.__init__ Camera__init__ device resolution auto_exposure
    exposure gain rotate crop fps display display_resize
  = (out, inr self) ->
  device <> -1
  /\ out = [device]
  /\ Camera__init__ device resolution exposure rotate crop fps display
       display_resize = inr (MacOpenCV.base self)
  /\ MacOpenCV.video self = false
  /\ MacOpenCV.auto_exposure self = auto_exposure
  /\ MacOpenCV.gain self = gain
  /\ MacOpenCV.cv2_color self = None
  /\ MacOpenCV.last_cap_read self = None.
Proof.
  unfold MacOpenCV.__init__.
  destruct (Z.eqb_spec device (-1)) as [->|Hne]; cbn [negb];
    [discriminate|].
  destruct (Camera__init__ device resolution exposure rotate crop fps
              display display_resize) as [e|b];
    cbn [Py.bind Py.ret]; [discriminate|].
  intros [= <- <-]. now repeat split.
Qed.

Lemma mac_init_success_witness :
  exists out self,
    MacOpenCV.__init__ sample_Camera_init 2 None None None None None None
      (Some 30%Q) true None = (out, inr self) /\
    out = [2] /\ MacOpenCV.video self = false.
Proof.
  do 2 eexists. split; [reflexivity|].
  destruct (mac_init_success sample_Camera_init 2 None None None None None
              None (Some 30%Q) true None _ _ eq_refl)
    as (_ & Ho & _ & Hv & _).
  now split.
Defined.

(** The first frame is dropped: in device mode [set_capture_device] reads
    one frame and discards it, and records the colour mode; the next
    [get_image_on_time] then takes no clock reading before its read,
    normalises the second frame of the device, and stamps it with the
    first clock reading, which becomes [last_cap_read]. *)
Theorem first_frame_dropped (rotate_bound : ndarray -> Q -> ndarray)
  (self : MacOpenCV.Mac_OpenCVCam) (mode t : Q)
  (first : option ndarray) (raw frame : ndarray)
  (dev' : list (option ndarray)) (clk : list Q) :
  MacOpenCV.video self = false ->
  exists opened calls,
    MacOpenCV.set_capture_device self mode (first :: Some raw :: dev')
      = Some (opened, Some raw :: dev', calls) /\
    MacOpenCV.cv2_color opened = Some mode /\
    MacOpenCV.base opened = MacOpenCV.base self /\
    (MacOpenCV.normalize rotate_bound opened raw = inr frame ->
     MacOpenCV.get_image_on_time rotate_bound opened
       (mkWorld (t :: clk) (Some raw :: dev'))
     = Some (MacOpenCV.with_last_cap_read opened t, mkWorld clk dev',
             inr (frame, t))).
Proof.
  intros Hv. unfold MacOpenCV.set_capture_device. rewrite Hv. cbn [negb].
  do 2 eexists. split; [reflexivity|].
  split; [reflexivity|]. split; [reflexivity|].
  intros Hn. unfold MacOpenCV.get_image_on_time.
  cbn [MacOpenCV.video clock device].
  unfold MacOpenCV.read_and_normalize. now rewrite Hn.
Qed.

Lemma first_frame_dropped_witness :
  exists opened calls,
    MacOpenCV.set_capture_device (mac_cam None None 0) 1
      [Some grey22; Some colour12]
      = Some (opened, [Some colour12], calls) /\
    MacOpenCV.get_image_on_time no_rotation opened
      (mkWorld [5%Q] [Some colour12])
    = Some (MacOpenCV.with_last_cap_read opened 5, mkWorld [] [],
            inr (Arr3 [[[30; 20; 10]; [60; 50; 40]]], 5%Q)).
Proof.
  destruct (first_frame_dropped no_rotation (mac_cam None None 0) 1 5
              (Some grey22) colour12
              (Arr3 [[[30; 20; 10]; [60; 50; 40]]]) [] [] eq_refl)
    as (opened & calls & Hs & Hc & Hb & Hg).
  exists opened, calls. split; [exact Hs|].
  apply Hg. injection Hs as <- _. reflexivity.
Defined.

(** Timestamp of the generic video backend: a successful
    [get_image_on_time] stamps the frame with a clock reading taken after
    the read and the normalisation, and stores it in [last_cap_read]; all
    the other attributes ([base], [video], [auto_exposure], [gain] and
    [cv2_color]) keep their values; one device response is consumed, and
    in device mode exactly one clock reading. *)
Theorem mac_timestamp_after_read (rotate_bound : ndarray -> Q -> ndarray)
  (self self' : MacOpenCV.Mac_OpenCVCam) (w w' : World (option ndarray))
  (frame : ndarray) (ts : Q) :
  MacOpenCV.get_image_on_time rotate_bound self w
    = Some (self', w', inr (frame, ts)) ->
  MacOpenCV.last_cap_read self' = Some ts
  /\ MacOpenCV.base self' = MacOpenCV.base self
  /\ MacOpenCV.video self' = MacOpenCV.video self
  /\ MacOpenCV.auto_exposure self' = MacOpenCV.auto_exposure self
  /\ MacOpenCV.gain self' = MacOpenCV.gain self
  /\ MacOpenCV.cv2_color self' = MacOpenCV.cv2_color self
  /\ (exists raw,
        device w = Some raw :: device w' /\
        MacOpenCV.normalize rotate_bound self raw = inr frame)
  /\ (exists pre, clock w = pre ++ ts :: clock w' /\
                  (MacOpenCV.video self = false -> pre = [])).
Proof.
  intros H.
  pose proof (mac_get_image_on_time_returned _ _ _ _ _ _ _ H)
    as (raw & Hd & Hn & ->).
  cbn [MacOpenCV.last_cap_read MacOpenCV.base MacOpenCV.video
       MacOpenCV.auto_exposure MacOpenCV.gain MacOpenCV.cv2_color
       MacOpenCV.with_last_cap_read].
  repeat (split; [reflexivity|]).
  split; [now exists raw|].
  unfold MacOpenCV.get_image_on_time in H.
  destruct (MacOpenCV.video self).
  - destruct (MacOpenCV.wait self (clock w)) as [[clk [e|[]]]|] eqn:Ew;
      try discriminate.
    apply read_and_normalize_returned in H as (_ & _ & -> & _ & _).
    assert (Hsuf : forall c c' r,
               MacOpenCV.wait self c = Some (c', r) ->
               exists pre, c = pre ++ c').
    { induction c as [|x c IH]; intros c' r; cbn [MacOpenCV.wait];
        [discriminate|].
      destruct (MacOpenCV.last_cap_read self) as [l|];
        [|intros [= <- _]; now exists [x]].
      destruct (Py.div 1 (MacOpenCV.fps (MacOpenCV.base self))) as [e|p];
        [intros [= <- _]; now exists [x]|].
      destruct (Py.lt (x - l) p).
      - intros Hw. apply IH in Hw as [pre ->]. now exists (x :: pre).
      - intros [= <- _]. now exists [x]. }
    apply Hsuf in Ew as [pre ->]. exists pre. split; [reflexivity|].
    discriminate.
  - apply read_and_normalize_returned in H as (_ & _ & -> & _ & _).
    exists []. now split.
Qed.

Lemma mac_timestamp_after_read_witness :
  MacOpenCV.last_cap_read
    (MacOpenCV.with_last_cap_read (mac_cam None None 0) 7)
  = Some 7%Q.
Proof.
  exact (proj1 (mac_timestamp_after_read no_rotation (mac_cam None None 0)
                  _ (mkWorld [7; 8]%Q [Some grey22]) _ _ _ eq_refl)).
Defined.

Lemma lt_false_iff (a b : Q) : Py.lt a b = false <-> (b <= a)%Q.
Proof.
  unfold Py.lt. rewrite negb_false_iff. apply Qle_bool_iff.
Qed.

Lemma lt_true_iff (a b : Q) : Py.lt a b = true <-> (a < b)%Q.
Proof.
  unfold Py.lt. rewrite negb_true_iff, <- not_true_iff_false, Qle_bool_iff.
  split; [apply Qnot_le_lt | apply Qlt_not_le].
Qed.

(** What a finished busy-wait has done: it let the readings [pre] go by,
    each less than a period after the last read, and stopped at [t], a
    period or more after it. *)
Lemma wait_finished (self : MacOpenCV.Mac_OpenCVCam) (clk : list Q) :
  forall clk',
  MacOpenCV.wait self clk = Some (clk', inr tt) ->
  exists pre t l p,
    MacOpenCV.last_cap_read self = Some l /\
    Py.div 1 (MacOpenCV.fps (MacOpenCV.base self)) = inr p /\
    clk = pre ++ t :: clk' /\
    Forall (fun x => (x - l < p)%Q) pre /\
    (p <= t - l)%Q.
Proof.
  induction clk as [|x clk IH]; intros clk'; cbn [MacOpenCV.wait];
    [discriminate|].
  destruct (MacOpenCV.last_cap_read self) as [l|]; [|discriminate].
  destruct (Py.div 1 (MacOpenCV.fps (MacOpenCV.base self))) as [e|p];
    [discriminate|].
  destruct (Py.lt (x - l) p) eqn:E.
  - intros H. apply IH in H
      as (pre & t & l' & p' & [= <-] & [= <-] & -> & Hpre & Ht).
    exists (x :: pre), t, l, p. repeat split; auto.
    constructor; auto. now apply lt_true_iff.
  - intros [= <-]. exists [], x, l, p. repeat split; auto.
    now apply lt_false_iff.
Qed.

Lemma sorted_adjacent (pre : list Q) (a b : Q) (rest : list Q) :
  nondecreasing (pre ++ a :: b :: rest) -> (a <= b)%Q.
Proof.
  unfold nondecreasing. induction pre as [|x pre IH]; cbn [app]; intros H.
  - apply Sorted_inv in H as [_ H]. now inversion H.
  - apply Sorted_inv in H as [H _]. now apply IH.
Qed.

(** Pacing of video mode: with a clock that never runs backwards, a frame
    returned in video mode is stamped at least one period [1/fps] after
    the previous read time. *)
Theorem video_mode_spacing (rotate_bound : ndarray -> Q -> ndarray)
  (self self' : MacOpenCV.Mac_OpenCVCam) (w w' : World (option ndarray))
  (frame : ndarray) (ts last F : Q) :
  MacOpenCV.video self = true ->
  MacOpenCV.last_cap_read self = Some last ->
  MacOpenCV.fps (MacOpenCV.base self) = Some F ->
  nondecreasing (clock w) ->
  MacOpenCV.get_image_on_time rotate_bound self w
    = Some (self', w', inr (frame, ts)) ->
  (1 / F <= ts - last)%Q.
Proof.
  intros Hv Hl HF Hs. unfold MacOpenCV.get_image_on_time. rewrite Hv.
  destruct (MacOpenCV.wait self (clock w)) as [[clk [e|[]]]|] eqn:Ew;
    try discriminate.
  intros H. apply read_and_normalize_returned in H as (_ & _ & -> & _ & _).
  apply wait_finished in Ew as (pre & t & l & p & Hl' & Hp & Hc & _ & Ht).
  rewrite Hl in Hl'. injection Hl' as <-.
  apply div_ok in Hp as (F' & HF' & _ & ->).
  rewrite HF in HF'. injection HF' as <-.
  rewrite Hc in Hs. apply sorted_adjacent in Hs.
  generalize dependent (1 / F)%Q. intros p Ht. lra.
Qed.

Lemma video_mode_spacing_witness : (1 / 10 <= (3 # 10) - (1 # 10))%Q.
Proof.
  eapply (video_mode_spacing no_rotation
           (MacOpenCV.mkMac
              (MacOpenCV.mkCamera 0 None None None None (Some 10%Q))
              true None None (Some 0%Q) (Some (1 # 10)%Q))
           _ (mkWorld [15 # 100; 1 # 5; 3 # 10]%Q [Some grey22]) _ grey22
           (3 # 10)%Q (1 # 10)%Q 10%Q eq_refl eq_refl eq_refl).
  - repeat constructor; discriminate.
  - reflexivity.
Defined.

Lemma slice_bound_range (len i : Z) :
  0 <= len -> 0 <= Py.slice_bound len i <= len.
Proof.
  intros Hlen. unfold Py.slice_bound. destruct (i <? 0) eqn:E; lia.
Qed.

Lemma slice_length_clipped {A : Type} (a b : Z) (l : list A) :
  Z.of_nat (List.length (Py.slice a b l))
  = Z.max 0 (Py.slice_bound (Z.of_nat (List.length l)) b
             - Py.slice_bound (Z.of_nat (List.length l)) a).
Proof.
  unfold Py.slice. rewrite length_firstn, length_skipn.
  pose proof (slice_bound_range (Z.of_nat (List.length l)) a
                (Nat2Z.is_nonneg _)).
  pose proof (slice_bound_range (Z.of_nat (List.length l)) b
                (Nat2Z.is_nonneg _)).
  lia.
Qed.

(** Crop rectangles that do not fit: with a crop of four entries the crop
    step never raises.  Each bound is adjusted as in a Python slice (a
    negative bound counts from the end, and the result is clipped to the
    frame), and the frame returned has [max(0, bottom' - top')] rows of
    [max(0, right' - left')] cells for the adjusted bounds, so it is never
    larger than the frame it is cut from. *)
Theorem crop_clips_to_frame (self : MacOpenCV.Mac_OpenCVCam)
  (frame : ndarray) (left right top bottom h w : Z) :
  MacOpenCV.crop (MacOpenCV.base self) = Some [left; right; top; bottom] ->
  nd_shape frame h w ->
  exists cropped,
    MacOpenCV.crop_step self frame = inr cropped /\
    nd_shape cropped
      (Z.max 0 (Py.slice_bound h bottom - Py.slice_bound h top))
      (Z.max 0 (Py.slice_bound w right - Py.slice_bound w left)) /\
    Z.max 0 (Py.slice_bound h bottom - Py.slice_bound h top) <= h /\
    (0 < h ->
     Z.max 0 (Py.slice_bound w right - Py.slice_bound w left) <= w).
Proof.
  intros Hc Hs.
  exists (nd_slice top bottom left right frame). split.
  { unfold MacOpenCV.crop_step. now rewrite Hc. }
  assert (Hg : forall (A : Type) (g : grid A),
             grid_shape g h w ->
             grid_shape (grid_slice top bottom left right g)
               (Z.max 0 (Py.slice_bound h bottom - Py.slice_bound h top))
               (Z.max 0 (Py.slice_bound w right - Py.slice_bound w left))
             /\ 0 <= h /\ (0 < h -> 0 <= w)).
  { intros A g [Hh Hw]. split; [split|split].
    - unfold grid_slice. rewrite length_map, slice_length_clipped.
      now rewrite Hh.
    - unfold grid_slice. apply Forall_map, Forall_forall. intros row Hin.
      apply slice_incl in Hin. rewrite Forall_forall in Hw.
      rewrite slice_length_clipped. now rewrite (Hw row Hin).
    - lia.
    - intros Hpos. destruct g as [|row g]; [cbn in Hh; lia|].
      inversion Hw; subst. lia. }
  assert (Hg' : nd_shape (nd_slice top bottom left right frame)
                  (Z.max 0 (Py.slice_bound h bottom - Py.slice_bound h top))
                  (Z.max 0 (Py.slice_bound w right
                            - Py.slice_bound w left))
                /\ 0 <= h /\ (0 < h -> 0 <= w)).
  { destruct frame as [g|g]; cbn [nd_shape nd_slice] in *; now apply Hg. }
  destruct Hg' as (Hshape & Hh0 & Hw0).
  split; [exact Hshape|]. split.
  - pose proof (slice_bound_range h top Hh0).
    pose proof (slice_bound_range h bottom Hh0). lia.
  - intros Hpos. specialize (Hw0 Hpos).
    pose proof (slice_bound_range w left Hw0).
    pose proof (slice_bound_range w right Hw0). lia.
Qed.

(** A crop that reaches past a 3x3 frame, and one given from the end. *)
Lemma crop_clips_to_frame_witness :
  (exists cropped,
     MacOpenCV.crop_step (mac_cam None (Some [1; 10; 2; 10]) 0)
       (Arr2 [[1; 2; 3]; [4; 5; 6]; [7; 8; 9]]) = inr cropped /\
     nd_shape cropped 1 2)
  /\ (exists cropped,
        MacOpenCV.crop_step (mac_cam None (Some [-1; 3; -2; 3]) 0)
          (Arr2 [[1; 2; 3]; [4; 5; 6]; [7; 8; 9]]) = inr cropped /\
        nd_shape cropped 2 1).
Proof.
  split.
  - destruct (crop_clips_to_frame (mac_cam None (Some [1; 10; 2; 10]) 0)
                (Arr2 [[1; 2; 3]; [4; 5; 6]; [7; 8; 9]]) 1 10 2 10 3 3
                eq_refl)
      as (cropped & Hc & Hs & _).
    + cbn. split; [reflexivity | repeat constructor].
    + now exists cropped.
  - destruct (crop_clips_to_frame (mac_cam None (Some [-1; 3; -2; 3]) 0)
                (Arr2 [[1; 2; 3]; [4; 5; 6]; [7; 8; 9]]) (-1) 3 (-2) 3 3 3
                eq_refl)
      as (cropped & Hc & Hs & _).
    + cbn. split; [reflexivity | repeat constructor].
    + now exists cropped.
Defined.
